(** * validator.ts: composable value validators

    A shallow embedding of [src/validator.ts] (the exported [Validators]
    record, [validate] and the helpers [isEmptyValue], [executeValidators]
    and [mergeErrors]) together with the properties its specification
    states about it.

    The source is TypeScript whose validated value has type [any], so the
    embedding starts with the part of ECMAScript the source relies on:
    values, the property read [value.length], [===], [typeof], [??],
    [isNaN], the relational operators, template literals and
    [RegExp.prototype.test].  A fault (the source can only meet
    [TypeError]) is an explicit outcome, not a missing case. *)

From Stdlib Require Import QArith Ascii.
From stdpp Require Import base option list strings pretty gmap.

Local Open Scope string_scope.

(** ** Numbers

    A Number is [NaN], one of the two infinities or a finite value.  The
    finite values are kept by their exact rational value: every double is a
    rational, comparison of doubles is comparison of their values, and the
    source never does arithmetic.  The two zeros are not told apart ([===]
    and [<] do not tell them apart either). *)

Inductive number : Type :=
  | NaN
  | PInf
  | NInf
  | Fin (q : Q).

Definition Qltb (a b : Q) : bool :=
  match (a ?= b)%Q with Lt => true | _ => false end.

(** [Number::lessThan]: [None] is the answer [undefined] that a NaN operand
    gives. *)
Definition number_less_than (x y : number) : option bool :=
  match x, y with
  | NaN, _ | _, NaN => None
  | PInf, _ => Some false
  | _, PInf => Some true
  | _, NInf => Some false
  | NInf, _ => Some true
  | Fin a, Fin b => Some (Qltb a b)
  end.

Definition number_is_nan (x : number) : bool :=
  match x with NaN => true | _ => false end.

Definition number_of_nat (n : nat) : number := Fin (inject_Z (Z.of_nat n)).

(** ** Regular expression objects

    A RegExp object is its source, its flags and the mutable [lastIndex]
    that [test] reads and writes when the [g] or [y] flag is set. *)

Record regexp : Type := RegExp {
  re_source : string;
  re_flags : string;
  re_lastIndex : nat
}.

Fixpoint string_mem (c : ascii) (s : string) : bool :=
  match s with
  | EmptyString => false
  | String d s' => if Ascii.eqb c d then true else string_mem c s'
  end.

Definition re_global (r : regexp) : bool := string_mem "g"%char (re_flags r).
Definition re_sticky (r : regexp) : bool := string_mem "y"%char (re_flags r).

(** [RegExp.prototype.toString]: what [${pattern}] interpolates. *)
Definition regexp_to_string (r : regexp) : string :=
  "/" ++ re_source r ++ "/" ++ re_flags r.

(** ** Values

    The values a parameter of type [any] ranges over: the primitives,
    arrays, ordinary objects with data properties (prototype
    [Object.prototype]) and RegExp objects.  BigInts, functions, accessors
    and proxies are left out.  A string is the sequence of its code
    units. *)

#[warnings="-register-all"]
Inductive any : Type :=
  | VUndefined
  | VNull
  | VBool (b : bool)
  | VNum (n : number)
  | VStr (s : string)
  | VSymbol (description : string)
  | VArray (elements : list any)
  | VObject (properties : list (string * any))
  | VRegExp (r : regexp).

(** The own data properties of an ordinary object, first binding first. *)
Fixpoint own_property (key : string) (props : list (string * any))
  : option any :=
  match props with
  | [] => None
  | (k, v) :: rest => if String.eqb k key then Some v else own_property key rest
  end.

(** ** Outcomes *)

Inductive error : Type := TypeError.

Inductive completion (A : Type) : Type :=
  | Normal (a : A)
  | Throw (e : error).
Arguments Normal {A} a.
Arguments Throw {A} e.

(** Sequencing: a fault ends the computation. *)
Definition bind {A B : Type} (c : completion A) (k : A -> completion B)
  : completion B :=
  match c with
  | Normal a => k a
  | Throw e => Throw e
  end.

Notation "x <- c ;; k" := (bind c (fun x => k))
  (at level 100, c at next level, right associativity).

(** [a || b] and [a && b] on operands that may throw: the right operand is
    evaluated only when the left one does not decide. *)
Definition or_else (a b : completion bool) : completion bool :=
  x <- a ;; if x then Normal true else b.
Definition and_then (a b : completion bool) : completion bool :=
  x <- a ;; if x then b else Normal false.

Definition returns {A : Type} (c : completion A) : Prop :=
  match c with Normal _ => True | Throw _ => False end.

(** ** The runtime's primitives

    Three algorithms of the language runtime are left to it:
    [Number::toString], [StringToNumber] and the pattern matcher of a
    RegExp ([regexp_matcher source flags input i] tries a match that starts
    at index [i] and gives the index where it ends). *)

Class Runtime : Type := {
  number_to_string : number -> string;
  string_to_number : string -> number;
  regexp_matcher : string -> string -> string -> nat -> option nat
}.

(** ** ECMAScript operations used by the source *)

Section Language.
Context `{Runtime}.

(** [typeof v]. *)
Definition typeof (v : any) : string :=
  match v with
  | VUndefined => "undefined"
  | VBool _ => "boolean"
  | VNum _ => "number"
  | VStr _ => "string"
  | VSymbol _ => "symbol"
  | VNull | VArray _ | VObject _ | VRegExp _ => "object"
  end.

(** [v === null]. *)
Definition strict_equals_null (v : any) : bool :=
  match v with VNull => true | _ => false end.

(** [v === n] for a number [n]: a number with the same value, never NaN. *)
Definition strict_equals_number (v : any) (n : number) : bool :=
  match v, n with
  | VNum PInf, PInf | VNum NInf, NInf => true
  | VNum (Fin a), Fin b => Qeq_bool a b
  | _, _ => false
  end.

(** [v.length]: reading a property of [null] or [undefined] throws; a
    string and an array have their length, an object has what its own
    [length] property holds, and the other prototypes have no [length]. *)
Definition get_length (v : any) : completion any :=
  match v with
  | VUndefined | VNull => Throw TypeError
  | VStr s => Normal (VNum (number_of_nat (String.length s)))
  | VArray l => Normal (VNum (number_of_nat (length l)))
  | VObject props => Normal (default VUndefined (own_property "length" props))
  | VBool _ | VNum _ | VSymbol _ | VRegExp _ => Normal VUndefined
  end.

(** [a ?? b]. *)
Definition nullish_coalesce (a b : any) : any :=
  match a with
  | VUndefined | VNull => b
  | _ => a
  end.

Definition has_own_property (key : string) (props : list (string * any))
  : bool :=
  match own_property key props with Some _ => true | None => false end.

(** [Array.prototype.join] with the separator [,]: an [undefined] or
    [null] element gives the empty string, another one its [ToString]. *)
Definition array_join (element_to_string : any -> completion string)
  : list any -> completion string :=
  fix join (l : list any) : completion string :=
    match l with
    | [] => Normal ""
    | x :: rest =>
        s <- match x with
             | VUndefined | VNull => Normal ""
             | _ => element_to_string x
             end ;;
        match rest with
        | [] => Normal s
        | _ :: _ => r <- join rest ;; Normal (s ++ "," ++ r)
        end
    end.

(** [ToString].  An array is joined with commas; an ordinary object
    answers through [Object.prototype.toString] unless an own [toString]
    property, which here is never a function, hides it; a Symbol cannot
    be converted. *)
Fixpoint to_string (v : any) : completion string :=
  match v with
  | VUndefined => Normal "undefined"
  | VNull => Normal "null"
  | VBool b => Normal (if b then "true" else "false")
  | VNum n => Normal (number_to_string n)
  | VStr s => Normal s
  | VSymbol _ => Throw TypeError
  | VArray l => array_join to_string l
  | VObject props =>
      if has_own_property "toString" props then Throw TypeError
      else Normal "[object Object]"
  | VRegExp r => Normal (regexp_to_string r)
  end.

(** [ToPrimitive]: an object becomes the string its [toString] gives
    ([valueOf] of these objects returns the object itself, whatever the
    hint). *)
Definition to_primitive (v : any) : completion any :=
  match v with
  | VArray _ | VObject _ | VRegExp _ => s <- to_string v ;; Normal (VStr s)
  | _ => Normal v
  end.

(** [ToNumber]. *)
Definition to_number (v : any) : completion number :=
  p <- to_primitive v ;;
  match p with
  | VUndefined => Normal NaN
  | VNull => Normal (Fin 0)
  | VBool b => Normal (Fin (if b then 1 else 0))
  | VNum n => Normal n
  | VStr s => Normal (string_to_number s)
  | _ => Throw TypeError
  end.

(** The global [isNaN(v)]. *)
Definition isNaN (v : any) : completion bool :=
  n <- to_number v ;; Normal (number_is_nan n).

(** [IsLessThan(x, y)]: two strings compare by code units, anything else by
    number; [None] is [undefined]. *)
Definition is_less_than (x y : any) : completion (option bool) :=
  px <- to_primitive x ;;
  py <- to_primitive y ;;
  match px, py with
  | VStr a, VStr b => Normal (Some (String.ltb a b))
  | _, _ =>
      nx <- to_number px ;;
      ny <- to_number py ;;
      Normal (number_less_than nx ny)
  end.

Definition is_true (r : option bool) : bool :=
  match r with Some true => true | _ => false end.
Definition is_false (r : option bool) : bool :=
  match r with Some false => true | _ => false end.

(** [a < b], [a > b] and [a >= b]. *)
Definition less_than (a b : any) : completion bool :=
  r <- is_less_than a b ;; Normal (is_true r).
Definition greater_than (a b : any) : completion bool :=
  r <- is_less_than b a ;; Normal (is_true r).
Definition greater_equal (a b : any) : completion bool :=
  r <- is_less_than a b ;; Normal (is_false r).

(** [RegExpBuiltinExec]: the search starts at [lastIndex] when the RegExp
    is global or sticky and at 0 otherwise, moves right one index at a time
    unless the RegExp is sticky, and leaves in [lastIndex] the end of the
    match, or 0 when there is none.  The result is the end of the match and
    the RegExp object after the call. *)
Fixpoint regexp_search (r : regexp) (s : string) (i fuel : nat) : option nat :=
  match fuel with
  | O => None
  | S fuel' =>
      match regexp_matcher (re_source r) (re_flags r) s i with
      | Some e => Some e
      | None => if re_sticky r then None else regexp_search r s (S i) fuel'
      end
  end.

Definition regexp_builtin_exec (r : regexp) (s : string)
  : option nat * regexp :=
  let tracked := re_global r || re_sticky r in
  let lastIndex := if tracked then re_lastIndex r else 0%nat in
  let found := regexp_search r s lastIndex (S (String.length s) - lastIndex) in
  let r' :=
    if tracked
    then RegExp (re_source r) (re_flags r) (default 0%nat found)
    else r in
  (found, r').

(** [r.test(v)]. *)
Definition regexp_test (r : regexp) (v : any) : completion (bool * regexp) :=
  s <- to_string v ;;
  let '(found, r') := regexp_builtin_exec r s in
  Normal (bool_decide (found <> None), r').

End Language.

(** ** The data model of [validator.ts] *)

(** The entry of one rule: [{ message: string, reason?: any }]. *)
Record error_detail : Type := ErrorDetail {
  message : string;
  reason : option any
}.

(** [ValidationErrors], an object used as a map from rule keys to
    entries. *)
Abbreviation ValidationErrors := (gmap string error_detail).

Record ValidationResult : Type := Build_ValidationResult {
  errors : option ValidationErrors;
  valid : bool
}.

Definition ValidatorFn : Type := any -> completion (option ValidationErrors).

(** The second parameter of [validate]: [ValidatorFn | ValidatorFn[]]. *)
Inductive validators_arg : Type :=
  | OneValidator (f : ValidatorFn)
  | ValidatorArray (fs : list ValidatorFn).

(** The double-quote character of the messages (code 34). *)
Definition dquote : string := String "034"%char "".

(** [{...result, ...error}]: the properties of [result], then those of
    [error], which win on a shared key. *)
Definition spread (result error : ValidationErrors) : ValidationErrors :=
  error ∪ result.

(** [Object.keys(o)]. *)
Definition object_keys (o : ValidationErrors) : list string :=
  (map_to_list o).*1.

(** [Array.prototype.map] with a callback that may throw: the elements are
    visited from the left and the first fault ends the call. *)
Fixpoint array_map {A B : Type} (f : A -> completion B) (l : list A)
  : completion (list B) :=
  match l with
  | [] => Normal []
  | x :: rest => y <- f x ;; ys <- array_map f rest ;; Normal (y :: ys)
  end.

(** ** The helpers of [validator.ts] *)

Section Helpers.
Context `{Runtime}.

(** [function isEmptyValue(value)], lines 119-121. *)
Definition isEmptyValue (value : any) : completion bool :=
  or_else (Normal (strict_equals_null value))
    (or_else (Normal (String.eqb (typeof value) "undefined"))
       (len <- get_length value ;;
        Normal (strict_equals_number len (Fin 0)))).

(** [function executeValidators(value, validators)], lines 123-125. *)
Definition executeValidators (value : any) (validators : list ValidatorFn)
  : completion (list (option ValidationErrors)) :=
  array_map (fun v => v value) validators.

(** [function mergeErrors(errors)], lines 127-133. *)
Definition mergeErrors (errors : list (option ValidationErrors))
  : option ValidationErrors :=
  let result :=
    foldl (fun result error =>
             match error with
             | Some error => spread result error
             | None => result
             end) ∅ errors in
  if Nat.eqb (length (object_keys result)) 0 then None else Some result.

End Helpers.

(** ** [export const Validators], lines 17-106 *)

Module Validators.
Section Validators.
Context `{Runtime}.

Definition required : ValidatorFn := fun value =>
  empty <- isEmptyValue value ;;
  Normal
    (if empty
     then Some {[ "required" :=
                    ErrorDetail (dquote ++ "value" ++ dquote ++ " is required")
                      None ]}
     else None).

Definition min (min : any) : ValidatorFn := fun value =>
  skip <- or_else (isEmptyValue value) (isEmptyValue min) ;;
  if skip then Normal None
  else
    fails <- and_then (nan <- isNaN value ;; Normal (negb nan))
               (less_than value min) ;;
    if fails
    then
      text <- to_string min ;;
      Normal
        (Some {[ "min" :=
                   ErrorDetail
                     (dquote ++ "value" ++ dquote ++ " must be greater than "
                        ++ text)
                     (Some (VObject [("min", min); ("actual", value)])) ]})
    else Normal None.

Definition max (max : any) : ValidatorFn := fun value =>
  skip <- or_else (isEmptyValue value) (isEmptyValue max) ;;
  if skip then Normal None
  else
    fails <- and_then (nan <- isNaN value ;; Normal (negb nan))
               (greater_than value max) ;;
    if fails
    then
      text <- to_string max ;;
      Normal
        (Some {[ "max" :=
                   ErrorDetail
                     (dquote ++ "value" ++ dquote ++ " must be less than "
                        ++ text)
                     (Some (VObject [("max", max); ("actual", value)])) ]})
    else Normal None.

Definition minLength (minLength : any) : ValidatorFn := fun value =>
  skip <- isEmptyValue value ;;
  if skip then Normal None
  else
    len <- get_length value ;;
    let length := nullish_coalesce len (VNum (Fin 0)) in
    fails <- less_than length minLength ;;
    if fails
    then
      text <- to_string minLength ;;
      Normal
        (Some {[ "minLength" :=
                   ErrorDetail
                     (dquote ++ "value" ++ dquote
                        ++ " length must be at least " ++ text
                        ++ " characters long")
                     (Some (VObject [("requiredLength", minLength);
                                     ("actualLength", length)])) ]})
    else Normal None.

Definition maxLength (maxLength : any) : ValidatorFn := fun value =>
  skip <- isEmptyValue value ;;
  if skip then Normal None
  else
    len <- get_length value ;;
    let length := nullish_coalesce len (VNum (Fin 0)) in
    fails <- greater_than length maxLength ;;
    if fails
    then
      text <- to_string maxLength ;;
      Normal
        (Some {[ "maxLength" :=
                   ErrorDetail
                     (dquote ++ "value" ++ dquote
                        ++ " length must be less than " ++ text
                        ++ " characters long")
                     (Some (VObject [("requiredLength", maxLength);
                                     ("actualLength", length)])) ]})
    else Normal None.

(** [pattern.test(value)] may move [lastIndex], so the RegExp that the
    message and the reason read afterwards is the object after the call. *)
Definition pattern (pattern : regexp) : ValidatorFn := fun value =>
  skip <- isEmptyValue value ;;
  if skip then Normal None
  else
    tested <- regexp_test pattern value ;;
    let pattern := tested.2 in
    if tested.1 then Normal None
    else
      Normal
        (Some {[ "pattern" :=
                   ErrorDetail
                     (dquote ++ "value" ++ dquote
                        ++ " fails to match the required pattern: "
                        ++ regexp_to_string pattern)
                     (Some (VObject [("requiredPattern", VRegExp pattern);
                                     ("actualValue", value)])) ]}).

End Validators.
End Validators.

(** ** [export const validate], lines 108-117 *)

Section Validate.
Context `{Runtime}.

Definition validate (value : any) (validators : validators_arg)
  : completion ValidationResult :=
  let vs :=
    match validators with
    | ValidatorArray fs => fs
    | OneValidator f => [f]
    end in
  results <- executeValidators value vs ;;
  let errors := mergeErrors results in
  let valid := bool_decide (errors = None) in
  if bool_decide (errors <> None)
  then Normal (Build_ValidationResult errors valid)
  else Normal (Build_ValidationResult errors valid).

End Validate.

(** ** A runtime for closed examples

    The theorems below hold for every runtime.  The closed examples need
    one to run in; [integer_runtime] implements the three primitives on the
    inputs those examples use and agrees with ECMAScript there: an integer
    below 10^21 in magnitude prints in decimal, a string of decimal digits
    with an optional sign denotes that integer, and a pattern source
    without metacharacters and flags other than [g] and [y] matches
    itself.  Elsewhere (a fraction, an exponent, white space, a character
    class) it is not ECMAScript's algorithm, and no example goes there. *)

Definition integer_number_to_string (n : number) : string :=
  match n with
  | NaN => "NaN"
  | PInf => "Infinity"
  | NInf => "-Infinity"
  | Fin q =>
      let r := Qred q in
      if Pos.eqb (Qden r) 1 then pretty (Qnum r)
      else pretty (Qnum r) ++ "/" ++ pretty (Zpos (Qden r))
  end.

Definition digit_value (c : ascii) : option Z :=
  let n := Z.of_nat (nat_of_ascii c) in
  if bool_decide (48 <= n <= 57)%Z then Some (n - 48)%Z else None.

Fixpoint digits_value (acc : Z) (s : string) : option Z :=
  match s with
  | EmptyString => Some acc
  | String c s' =>
      match digit_value c with
      | Some d => digits_value (10 * acc + d)%Z s'
      | None => None
      end
  end.

Definition unsigned_integer (s : string) : option Z :=
  match s with
  | EmptyString => None
  | _ => digits_value 0 s
  end.

Definition integer_string_to_number (s : string) : number :=
  match s with
  | EmptyString => Fin 0
  | String "-" s' =>
      match unsigned_integer s' with
      | Some z => Fin (inject_Z (- z))
      | None => if String.eqb s' "Infinity" then NInf else NaN
      end
  | String "+" s' =>
      match unsigned_integer s' with
      | Some z => Fin (inject_Z z)
      | None => if String.eqb s' "Infinity" then PInf else NaN
      end
  | _ =>
      match unsigned_integer s with
      | Some z => Fin (inject_Z z)
      | None => if String.eqb s "Infinity" then PInf else NaN
      end
  end.

Definition literal_matcher (source flags input : string) (i : nat)
  : option nat :=
  if bool_decide (i <= String.length input)%nat
     && String.prefix source (String.substring i (String.length input - i) input)
  then Some (i + String.length source)%nat
  else None.

Definition integer_runtime : Runtime := {|
  number_to_string := integer_number_to_string;
  string_to_number := integer_string_to_number;
  regexp_matcher := literal_matcher
|}.

(** ** Notions the specification uses *)

(** Empty-per-predicate, after the glossary: the value is the absence
    marker, the empty string, or has a length property equal to zero. *)
Definition zero_length (v : any) : bool :=
  match v with
  | VStr s => Nat.eqb (String.length s) 0
  | VArray l => Nat.eqb (length l) 0
  | VObject props =>
      match own_property "length" props with
      | Some l => strict_equals_number l (Fin 0)
      | None => false
      end
  | _ => false
  end.

Definition empty_per_predicate (v : any) : bool :=
  match v with
  | VNull | VUndefined => true
  | _ => zero_length v
  end.

(** The order of numbers, [x <= y]; NaN is related to nothing. *)
Definition number_le (x y : number) : Prop :=
  match x, y with
  | NaN, _ | _, NaN => False
  | NInf, _ | _, PInf => True
  | Fin a, Fin b => (a <= b)%Q
  | _, _ => False
  end.

(** The length the length rules measure: the value's [length] property, or
    0 when it has none (or holds [null] or [undefined] there). *)
Definition length_or_zero (v : any) : any :=
  match v with
  | VStr s => VNum (number_of_nat (String.length s))
  | VArray l => VNum (number_of_nat (length l))
  | VObject props =>
      match own_property "length" props with
      | Some VUndefined | Some VNull | None => VNum (Fin 0)
      | Some l => l
      end
  | _ => VNum (Fin 0)
  end.

(** A RegExp matches a string when its pattern matches at some index of
    it (at index 0 for a sticky RegExp, which does not search). *)
Definition regexp_matches `{Runtime} (r : regexp) (s : string) : Prop :=
  exists i e : nat,
    (i <= String.length s)%nat
    /\ (re_sticky r = true -> i = 0%nat)
    /\ regexp_matcher (re_source r) (re_flags r) s i = Some e.

(** A RegExp that [test] reads from index 0: it is neither global nor
    sticky, or its [lastIndex] is 0. *)
Definition starts_at_zero (r : regexp) : Prop :=
  re_global r || re_sticky r = false \/ re_lastIndex r = 0%nat.


(** The validators [validate] runs: its argument when that is an array,
    the one-element array of it otherwise. *)
Definition validator_list (validators : validators_arg) : list ValidatorFn :=
  match validators with
  | OneValidator f => [f]
  | ValidatorArray fs => fs
  end.

(** A validator produced a failure when it returned a record that names
    at least one failing rule. *)
Definition failure (outcome : completion (option ValidationErrors)) : Prop :=
  exists e : ValidationErrors, outcome = Normal (Some e) /\ e <> ∅.

(** [null] read as the empty mapping, and an empty mapping read back as
    [null]. *)
Definition errors_map (errors : option ValidationErrors) : ValidationErrors :=
  default ∅ errors.

Definition errors_of_map (m : ValidationErrors) : option ValidationErrors :=
  if Nat.eqb (size m) 0 then None else Some m.




(** Results whose records have pairwise distinct keys ([null] holding
    none). *)
Fixpoint keys_disjoint (rs : list (option ValidationErrors)) : Prop :=
  match rs with
  | [] => True
  | r :: rest =>
      Forall (fun r' => errors_map r ##ₘ errors_map r') rest
      /\ keys_disjoint rest
  end.

(** The format rules: the validators that the five factories of
    [Validators] produce. *)
Inductive format_rule `{Runtime} : ValidatorFn -> Prop :=
  | format_min (m : any) : format_rule (Validators.min m)
  | format_max (m : any) : format_rule (Validators.max m)
  | format_minLength (n : any) : format_rule (Validators.minLength n)
  | format_maxLength (n : any) : format_rule (Validators.maxLength n)
  | format_pattern (r : regexp) : format_rule (Validators.pattern r).

(** The records the validators return. *)
Definition required_error : ValidationErrors :=
  {[ "required" :=
       ErrorDetail (dquote ++ "value" ++ dquote ++ " is required") None ]}.

Definition min_error (text : string) (m v : any) : ValidationErrors :=
  {[ "min" :=
       ErrorDetail
         (dquote ++ "value" ++ dquote ++ " must be greater than " ++ text)
         (Some (VObject [("min", m); ("actual", v)])) ]}.

Definition max_error (text : string) (m v : any) : ValidationErrors :=
  {[ "max" :=
       ErrorDetail
         (dquote ++ "value" ++ dquote ++ " must be less than " ++ text)
         (Some (VObject [("max", m); ("actual", v)])) ]}.

Definition maxLength_error (text : string) (n len : any) : ValidationErrors :=
  {[ "maxLength" :=
       ErrorDetail
         (dquote ++ "value" ++ dquote ++ " length must be less than " ++ text
            ++ " characters long")
         (Some (VObject [("requiredLength", n); ("actualLength", len)])) ]}.

Definition minLength_error (text : string) (n len : any) : ValidationErrors :=
  {[ "minLength" :=
       ErrorDetail
         (dquote ++ "value" ++ dquote ++ " length must be at least " ++ text
            ++ " characters long")
         (Some (VObject [("requiredLength", n); ("actualLength", len)])) ]}.

Definition pattern_error (r : regexp) (v : any) : ValidationErrors :=
  {[ "pattern" :=
       ErrorDetail
         (dquote ++ "value" ++ dquote
            ++ " fails to match the required pattern: " ++ regexp_to_string r)
         (Some (VObject [("requiredPattern", VRegExp r);
                         ("actualValue", v)])) ]}.

(** ** Numbers and emptiness *)

Lemma Qltb_lt (a b : Q) : Qltb a b = true <-> (a < b)%Q.
Proof.
  unfold Qltb. rewrite Qlt_alt.
  destruct (a ?= b)%Q; intuition congruence.
Qed.

Lemma Qltb_ge (a b : Q) : Qltb a b = false <-> (b <= a)%Q.
Proof.
  rewrite <- Bool.not_true_iff_false, Qltb_lt.
  split; [apply Qnot_lt_le | apply Qle_not_lt].
Qed.

(** Away from NaN, [x < y] fails exactly when [y <= x]. *)
Lemma number_less_than_ge (x y : number) :
  x <> NaN -> y <> NaN ->
  (is_true (number_less_than x y) = false <-> number_le y x).
Proof.
  intros Hx Hy.
  destruct x as [| | |a], y as [| | |b]; simpl; try congruence;
    try (split; [intros _; exact I | reflexivity]);
    try (split; [discriminate | contradiction]).
  destruct (Qltb a b) eqn:E; simpl.
  - apply Qltb_lt in E. split; [discriminate|].
    intros Hle. exfalso. exact (Qlt_not_le _ _ E Hle).
  - apply Qltb_ge in E. split; [intros _; exact E | reflexivity].
Qed.

Lemma number_less_than_nan_r (x : number) :
  is_true (number_less_than x NaN) = false.
Proof. destruct x; reflexivity. Qed.

Lemma strict_equals_number_of_nat (n : nat) :
  strict_equals_number (VNum (number_of_nat n)) (Fin 0) = Nat.eqb n 0.
Proof. destruct n; reflexivity. Qed.

(** The two guards of [isEmptyValue] keep the property read from
    throwing: the helper is total and computes the glossary's predicate. *)
Lemma isEmptyValue_spec (v : any) :
  isEmptyValue v = Normal (empty_per_predicate v).
Proof.
  destruct v as [| |b|n|s|d|l|props|r]; try reflexivity.
  - cbn. f_equal. exact (strict_equals_number_of_nat (String.length s)).
  - cbn. f_equal. exact (strict_equals_number_of_nat (length l)).
  - cbn. destruct (own_property "length" props); reflexivity.
Qed.

Lemma get_length_or_zero (v : any) :
  empty_per_predicate v = false ->
  exists len, get_length v = Normal len
    /\ nullish_coalesce len (VNum (Fin 0)) = length_or_zero v.
Proof.
  destruct v as [| |b|n|s|d|l|props|r]; simpl; try discriminate;
    intros _; eexists; (split; [reflexivity|]); try reflexivity.
  destruct (own_property "length" props) as [[]|]; reflexivity.
Qed.

(** ** Induction on values

    [any] is nested in lists, so the induction hypothesis for the elements
    of an array and for the properties of an object is stated with
    [Forall]. *)

Section AnyInduction.
Variable P : any -> Prop.
Hypothesis Hundefined : P VUndefined.
Hypothesis Hnull : P VNull.
Hypothesis Hbool : forall b, P (VBool b).
Hypothesis Hnum : forall n, P (VNum n).
Hypothesis Hstr : forall s, P (VStr s).
Hypothesis Hsymbol : forall d, P (VSymbol d).
Hypothesis Harray : forall l, Forall P l -> P (VArray l).
Hypothesis Hobject :
  forall props, Forall (fun p => P p.2) props -> P (VObject props).
Hypothesis Hregexp : forall r, P (VRegExp r).


End AnyInduction.

(** ** The primitive validators *)

Section Primitives.
Context `{Runtime}.

Lemma isNaN_number (n : number) : isNaN (VNum n) = Normal (number_is_nan n).
Proof. reflexivity. Qed.

Lemma less_than_numbers (x y : number) :
  less_than (VNum x) (VNum y) = Normal (is_true (number_less_than x y)).
Proof. reflexivity. Qed.

(** What [min] does once neither operand is empty. *)
Lemma min_unfold (m v : any) :
  empty_per_predicate v = false -> empty_per_predicate m = false ->
  Validators.min m v =
    (fails <- and_then (nan <- isNaN v ;; Normal (negb nan)) (less_than v m) ;;
     if fails
     then text <- to_string m ;; Normal (Some (min_error text m v))
     else Normal None).
Proof.
  intros Hv Hm. unfold Validators.min.
  rewrite !isEmptyValue_spec, Hv, Hm. reflexivity.
Qed.

Lemma max_unfold (m v : any) :
  empty_per_predicate v = false -> empty_per_predicate m = false ->
  Validators.max m v =
    (fails <- and_then (nan <- isNaN v ;; Normal (negb nan))
                (greater_than v m) ;;
     if fails
     then text <- to_string m ;; Normal (Some (max_error text m v))
     else Normal None).
Proof.
  intros Hv Hm. unfold Validators.max.
  rewrite !isEmptyValue_spec, Hv, Hm. reflexivity.
Qed.

Lemma max_skips_empty (m v : any) :
  empty_per_predicate v = true \/ empty_per_predicate m = true ->
  Validators.max m v = Normal None.
Proof.
  intros Hskip. unfold Validators.max. rewrite !isEmptyValue_spec.
  destruct (empty_per_predicate v); [reflexivity|].
  destruct Hskip as [Hv|Hm]; [discriminate|]. simpl. now rewrite Hm.
Qed.

Lemma greater_than_numbers (x y : number) :
  greater_than (VNum x) (VNum y) = Normal (is_true (number_less_than y x)).
Proof. reflexivity. Qed.

Lemma min_skips_empty (m v : any) :
  empty_per_predicate v = true \/ empty_per_predicate m = true ->
  Validators.min m v = Normal None.
Proof.
  intros Hskip. unfold Validators.min. rewrite !isEmptyValue_spec.
  destruct (empty_per_predicate v); [reflexivity|].
  destruct Hskip as [Hv|Hm]; [discriminate|]. simpl. now rewrite Hm.
Qed.

(** C2 (amended).  [Validators.required] returns the record
    [{ required: { message: '"value" is required' } }] when the value is
    [null], [undefined] or the empty string.  On any other value it
    returns [null] provided the value has no [length] property equal to
    0; on a value that has one (an empty array, an object whose [length]
    is 0) it returns the same record. *)
Theorem required_spec (v : any) :
  (v = VNull \/ v = VUndefined \/ v = VStr "" ->
   Validators.required v = Normal (Some required_error))
  /\ (v <> VNull -> v <> VUndefined -> v <> VStr "" ->
      zero_length v = false -> Validators.required v = Normal None)
  /\ (zero_length v = true ->
      Validators.required v = Normal (Some required_error)).
Proof.
  unfold Validators.required. rewrite isEmptyValue_spec. simpl.
  split; [|split].
  - intros [->|[->| ->]]; reflexivity.
  - intros Hnull Hundef _ Hlen.
    destruct v; try congruence; simpl in *; try rewrite Hlen; reflexivity.
  - intros Hlen.
    destruct v; try discriminate; simpl in *; try rewrite Hlen; reflexivity.
Qed.

(** C3 (amended).  For numbers [v] and [n] other than NaN,
    [Validators.min(n)(v)] returns [null] if and only if [v >= n] (or one
    of the two is empty-per-predicate, which no number is), and otherwise
    exactly [{ min: { message: '"value" must be greater than ' + n,
    reason: { min: n, actual: v } } }].  When [v] or [n] is NaN it
    returns [null], and so it does for every threshold that is
    empty-per-predicate. *)
Theorem min_spec (v n : number) :
  (v <> NaN -> n <> NaN ->
   (Validators.min (VNum n) (VNum v) = Normal None
    <-> number_le n v
        \/ empty_per_predicate (VNum v) = true
        \/ empty_per_predicate (VNum n) = true)
   /\ (~ number_le n v ->
       Validators.min (VNum n) (VNum v)
       = Normal (Some (min_error (number_to_string n) (VNum n) (VNum v)))))
  /\ (v = NaN \/ n = NaN -> Validators.min (VNum n) (VNum v) = Normal None)
  /\ (forall m : any, empty_per_predicate m = true ->
      Validators.min m (VNum v) = Normal None).
Proof.
  assert (Hshape :
    Validators.min (VNum n) (VNum v)
    = if negb (number_is_nan v) && is_true (number_less_than v n)
      then Normal (Some (min_error (number_to_string n) (VNum n) (VNum v)))
      else Normal None).
  { rewrite min_unfold by reflexivity.
    rewrite isNaN_number, less_than_numbers.
    destruct (number_is_nan v), (is_true (number_less_than v n));
      reflexivity. }
  split; [|split].
  - intros Hv Hn. rewrite Hshape.
    assert (Hnan : number_is_nan v = false) by (destruct v; simpl; congruence).
    rewrite Hnan. simpl negb. rewrite andb_true_l.
    pose proof (number_less_than_ge v n Hv Hn) as Hge.
    destruct (is_true (number_less_than v n)) eqn:Hlt.
    + assert (Hnle : ~ number_le n v).
      { intros Hle. apply Hge in Hle. discriminate. }
      split; [|reflexivity].
      split; [discriminate|].
      intros [Hle|[Hempty|Hempty]]; [contradiction|discriminate..].
    + split.
      * split; [intros _; left; now apply Hge | reflexivity].
      * intros Hnle. exfalso. apply Hnle. now apply Hge.
  - intros Hnan. rewrite Hshape. destruct Hnan as [-> | ->].
    + reflexivity.
    + rewrite number_less_than_nan_r, andb_false_r. reflexivity.
  - intros m Hm. apply min_skips_empty. now right.
Qed.

(** C6 (amended).  On a value [v] that is not empty-per-predicate and
    that [isNaN] reports as not a number (its conversion to a number
    succeeds and gives NaN), the validators [Validators.min(m)] and
    [Validators.max(m)] return [null] for every threshold [m] that is not
    empty-per-predicate.  When the conversion of [v] fails, as it does for
    a Symbol, both validators throw that error. *)
Theorem bounds_on_non_numeric (v m : any) :
  empty_per_predicate v = false -> empty_per_predicate m = false ->
  (isNaN v = Normal true ->
   Validators.min m v = Normal None /\ Validators.max m v = Normal None)
  /\ (forall e, to_number v = Throw e ->
      Validators.min m v = Throw e /\ Validators.max m v = Throw e).
Proof.
  intros Hv Hm. rewrite min_unfold, max_unfold by assumption.
  split.
  - intros Hnan. unfold and_then. rewrite Hnan. split; reflexivity.
  - intros e He. unfold and_then, isNaN. rewrite He. split; reflexivity.
Qed.

(** C7 (amended).  [Validators.minLength(n)(s)] returns [null] when [s]
    is empty-per-predicate.  When it is not, let [length] be the [length]
    property of [s], or 0 when [s] has none; if [length] is a number and
    neither it nor the bound [n] is NaN, the validator returns [null] if
    and only if [length >= n], and otherwise exactly
    [{ minLength: { message: '"value" length must be at least ' + n +
    ' characters long', reason: { requiredLength: n, actualLength: length
    } } }]. *)
Theorem minLength_spec (s : any) (n : number) :
  (empty_per_predicate s = true ->
   Validators.minLength (VNum n) s = Normal None)
  /\ (empty_per_predicate s = false ->
      forall len : number,
        length_or_zero s = VNum len -> len <> NaN -> n <> NaN ->
        (Validators.minLength (VNum n) s = Normal None <-> number_le n len)
        /\ (~ number_le n len ->
            Validators.minLength (VNum n) s
            = Normal (Some (minLength_error (number_to_string n)
                              (VNum n) (VNum len))))).
Proof.
  unfold Validators.minLength. rewrite isEmptyValue_spec. split.
  - intros ->. reflexivity.
  - intros Hs len Hlen Hnan Hn. rewrite Hs. simpl.
    destruct (get_length_or_zero s Hs) as (l & -> & Hl). simpl.
    rewrite Hl, Hlen, less_than_numbers. simpl.
    pose proof (number_less_than_ge len n Hnan Hn) as Hge.
    destruct (is_true (number_less_than len n)) eqn:Hlt.
    + assert (Hnle : ~ number_le n len).
      { intros Hle. apply Hge in Hle. discriminate. }
      split; [|reflexivity]. split; [discriminate | contradiction].
    + split.
      * split; [intros _; now apply Hge | reflexivity].
      * intros Hnle. exfalso. apply Hnle. now apply Hge.
Qed.

(** X1.  The symmetric property of [Validators.max]: for numbers [v] and [n]
    other than NaN, [max(n)(v)] returns [null] if and only if [v <= n],
    and otherwise exactly [{ max: { message: '"value" must be less than '
    + n, reason: { max: n, actual: v } } }]; it returns [null] when [v] or
    [n] is NaN and for every threshold that is empty-per-predicate. *)
Theorem max_spec (v n : number) :
  (v <> NaN -> n <> NaN ->
   (Validators.max (VNum n) (VNum v) = Normal None <-> number_le v n)
   /\ (~ number_le v n ->
       Validators.max (VNum n) (VNum v)
       = Normal (Some (max_error (number_to_string n) (VNum n) (VNum v)))))
  /\ (v = NaN \/ n = NaN -> Validators.max (VNum n) (VNum v) = Normal None)
  /\ (forall m : any, empty_per_predicate m = true ->
      Validators.max m (VNum v) = Normal None).
Proof.
  assert (Hshape :
    Validators.max (VNum n) (VNum v)
    = if negb (number_is_nan v) && is_true (number_less_than n v)
      then Normal (Some (max_error (number_to_string n) (VNum n) (VNum v)))
      else Normal None).
  { rewrite max_unfold by reflexivity.
    rewrite isNaN_number, greater_than_numbers.
    destruct (number_is_nan v), (is_true (number_less_than n v));
      reflexivity. }
  split; [|split].
  - intros Hv Hn. rewrite Hshape.
    assert (Hnan : number_is_nan v = false)
      by (destruct v; simpl; congruence).
    rewrite Hnan. simpl negb. rewrite andb_true_l.
    pose proof (number_less_than_ge n v Hn Hv) as Hle.
    destruct (is_true (number_less_than n v)) eqn:Hlt.
    + assert (Hnle : ~ number_le v n).
      { intros Hvn. apply Hle in Hvn. discriminate. }
      split; [|reflexivity]. split; [discriminate | contradiction].
    + split.
      * split; [intros _; now apply Hle | reflexivity].
      * intros Hnle. exfalso. apply Hnle. now apply Hle.
  - intros Hnan. rewrite Hshape. destruct Hnan as [-> | ->].
    + reflexivity.
    + simpl number_less_than. rewrite andb_false_r. reflexivity.
  - intros m Hm. apply max_skips_empty. now right.
Qed.

(** X2.  The symmetric property of [Validators.maxLength]: it returns [null]
    on a value that is empty-per-predicate; otherwise, when the length
    (the [length] property, or 0 without one) is a number and neither it
    nor the bound [n] is NaN, it returns [null] if and only if
    [length <= n], and else exactly [{ maxLength: { message: '"value"
    length must be less than ' + n + ' characters long', reason:
    { requiredLength: n, actualLength: length } } }]. *)
Theorem maxLength_spec (s : any) (n : number) :
  (empty_per_predicate s = true ->
   Validators.maxLength (VNum n) s = Normal None)
  /\ (empty_per_predicate s = false ->
      forall len : number,
        length_or_zero s = VNum len -> len <> NaN -> n <> NaN ->
        (Validators.maxLength (VNum n) s = Normal None <-> number_le len n)
        /\ (~ number_le len n ->
            Validators.maxLength (VNum n) s
            = Normal (Some (maxLength_error (number_to_string n)
                              (VNum n) (VNum len))))).
Proof.
  unfold Validators.maxLength. rewrite isEmptyValue_spec. split.
  - intros ->. reflexivity.
  - intros Hs len Hlen Hnan Hn. rewrite Hs. simpl.
    destruct (get_length_or_zero s Hs) as (l & -> & Hl). simpl.
    rewrite Hl, Hlen, greater_than_numbers. simpl.
    pose proof (number_less_than_ge n len Hn Hnan) as Hle.
    destruct (is_true (number_less_than n len)) eqn:Hlt.
    + assert (Hnle : ~ number_le len n).
      { intros Hln. apply Hle in Hln. discriminate. }
      split; [|reflexivity]. split; [discriminate | contradiction].
    + split.
      * split; [intros _; now apply Hle | reflexivity].
      * intros Hnle. exfalso. apply Hnle. now apply Hle.
Qed.

(** The search of [RegExpBuiltinExec] finds nothing exactly when the
    pattern matches at none of the indices it visits. *)
Lemma regexp_search_none (r : regexp) (s : string) (i fuel : nat) :
  re_sticky r = false ->
  (regexp_search r s i fuel = None
   <-> forall j, (i <= j < i + fuel)%nat ->
         regexp_matcher (re_source r) (re_flags r) s j = None).
Proof.
  intros Hsticky. revert i.
  induction fuel as [|fuel IH]; intros i; simpl.
  - split; [intros _ j Hj; lia | reflexivity].
  - destruct (regexp_matcher (re_source r) (re_flags r) s i) eqn:Hi.
    + split; [discriminate|]. intros Hall.
      rewrite Hall in Hi by lia. discriminate.
    + rewrite Hsticky, IH. split.
      * intros Hall j Hj. destruct (decide (j = i)) as [->|Hne];
          [assumption | apply Hall; lia].
      * intros Hall j Hj. apply Hall. lia.
Qed.

Lemma regexp_search_some (r : regexp) (s : string) (i fuel e : nat) :
  regexp_search r s i fuel = Some e ->
  exists j, (i <= j < i + fuel)%nat
    /\ (re_sticky r = true -> j = i)
    /\ regexp_matcher (re_source r) (re_flags r) s j = Some e.
Proof.
  revert i. induction fuel as [|fuel IH]; intros i; simpl; [discriminate|].
  destruct (regexp_matcher (re_source r) (re_flags r) s i) eqn:Hi.
  - intros [= ->]. exists i. repeat split; [lia..|assumption].
  - destruct (re_sticky r) eqn:Hsticky; [discriminate|].
    intros Hrest. destruct (IH _ Hrest) as (j & Hj & _ & Hm).
    exists j. repeat split; [lia..|discriminate|assumption].
Qed.

(** From index 0 the search succeeds exactly when the RegExp matches. *)
Lemma regexp_search_matches (r : regexp) (s : string) :
  regexp_search r s 0 (S (String.length s)) <> None <-> regexp_matches r s.
Proof.
  split.
  - destruct (regexp_search r s 0 (S (String.length s))) as [e|] eqn:Hs;
      [intros _ | congruence].
    destruct (regexp_search_some _ _ _ _ _ Hs) as (j & Hj & Hst & Hm).
    exists j, e. repeat split; [lia|assumption..].
  - intros (i & e & Hi & Hst & Hm) Hnone.
    destruct (re_sticky r) eqn:Hsticky.
    + rewrite (Hst eq_refl) in Hm. simpl in Hnone. rewrite Hm in Hnone.
      discriminate.
    + rewrite regexp_search_none in Hnone by assumption.
      rewrite Hnone in Hm by lia. discriminate.
Qed.

Lemma regexp_builtin_exec_from_zero (r : regexp) (s : string) :
  starts_at_zero r ->
  ((regexp_builtin_exec r s).1 <> None <-> regexp_matches r s)
  /\ ((regexp_builtin_exec r s).1 = None -> (regexp_builtin_exec r s).2 = r).
Proof.
  intros Hzero. unfold regexp_builtin_exec.
  assert (Hstart :
    (if re_global r || re_sticky r then re_lastIndex r else 0%nat) = 0%nat).
  { destruct Hzero as [-> | ->]; [reflexivity|].
    now destruct (re_global r || re_sticky r). }
  rewrite Hstart, Nat.sub_0_r. cbn [fst snd]. split.
  - apply regexp_search_matches.
  - intros ->. destruct (re_global r || re_sticky r) eqn:Htracked;
      [|reflexivity].
    destruct Hzero as [Hz|Hz]; [congruence|].
    destruct r as [src flags li]. simpl in *. now subst li.
Qed.

Lemma pattern_skips_empty (r : regexp) (v : any) :
  empty_per_predicate v = true -> Validators.pattern r v = Normal None.
Proof.
  intros Hv. unfold Validators.pattern. rewrite isEmptyValue_spec, Hv.
  reflexivity.
Qed.

(** What [pattern] does on a value that is not empty. *)
Lemma pattern_unfold (r : regexp) (v : any) :
  empty_per_predicate v = false ->
  Validators.pattern r v =
    (s <- to_string v ;;
     let tested := regexp_builtin_exec r s in
     if bool_decide (tested.1 <> None) then Normal None
     else Normal (Some (pattern_error tested.2 v))).
Proof.
  intros Hv. unfold Validators.pattern, regexp_test.
  rewrite isEmptyValue_spec, Hv. simpl bind.
  destruct (to_string v) as [s|e]; [|reflexivity]. simpl bind.
  destruct (regexp_builtin_exec r s) as [found r']. reflexivity.
Qed.

(** C8 (amended).  For every string [s] and every RegExp [r] that [test]
    reads from index 0 (it has neither the [g] nor the [y] flag, or its
    [lastIndex] is 0), [Validators.pattern(r)(s)] returns [null] if and
    only if [r] matches [s] or [s] is empty-per-predicate; otherwise it
    returns the single-key record [{ pattern: { message, reason } }]
    whose message ends with the string form of [r] and whose reason is
    [{ requiredPattern: r, actualValue: s }]. *)
Theorem pattern_spec (r : regexp) (s : string) :
  starts_at_zero r ->
  (Validators.pattern r (VStr s) = Normal None
   <-> regexp_matches r s \/ empty_per_predicate (VStr s) = true)
  /\ (~ (regexp_matches r s \/ empty_per_predicate (VStr s) = true) ->
      Validators.pattern r (VStr s)
      = Normal (Some (pattern_error r (VStr s)))).
Proof.
  intros Hzero.
  destruct (empty_per_predicate (VStr s)) eqn:Hempty.
  - rewrite pattern_skips_empty by assumption.
    split; [split; [now right | reflexivity]|].
    intros Hno. exfalso. apply Hno. now right.
  - rewrite pattern_unfold by assumption. cbn [to_string bind].
    destruct (regexp_builtin_exec_from_zero r s Hzero) as [Hfound Hsame].
    destruct (regexp_builtin_exec r s) as [found r'] eqn:Hexec.
    cbn [fst snd] in *. destruct found as [e|].
    + assert (Hm : regexp_matches r s) by (apply Hfound; discriminate).
      rewrite bool_decide_eq_true_2 by discriminate.
      split; [split; [now left | reflexivity]|].
      intros Hno. exfalso. apply Hno. now left.
    + rewrite bool_decide_eq_false_2 by (intros Hne; now apply Hne).
      rewrite (Hsame eq_refl).
      assert (Hnm : ~ regexp_matches r s).
      { intros Hm. apply Hfound in Hm. now apply Hm. }
      split; [|reflexivity].
      split; [discriminate|]. intros [Hm|Hm]; [contradiction|discriminate].
Qed.

(** ** No fault on values that convert *)


















End Primitives.

(** ** Running and merging *)

Section Merging.
Context `{Runtime}.

(** The callback of the [reduce] in [mergeErrors]. *)
Let reducer (result : ValidationErrors) (error : option ValidationErrors)
  : ValidationErrors :=
  match error with
  | Some error => spread result error
  | None => result
  end.

Lemma array_map_Forall2 {A B : Type} (f : A -> completion B)
    (l : list A) (rs : list B) :
  array_map f l = Normal rs <-> Forall2 (fun x r => f x = Normal r) l rs.
Proof.
  revert rs. induction l as [|x l IH]; intros rs; simpl.
  - split; [intros [= <-]; constructor | now inversion 1].
  - split.
    + destruct (f x) as [y|e] eqn:Hx; simpl; [|discriminate].
      destruct (array_map f l) as [ys|e] eqn:Hl; simpl; [|discriminate].
      intros [= <-]. constructor; [exact Hx | now apply IH].
    + inversion 1 as [|? y ? ys Hy Hys]; subst. rewrite Hy. simpl.
      apply IH in Hys. rewrite Hys. reflexivity.
Qed.

Lemma array_map_returns {A B : Type} (f : A -> completion B) (l : list A) :
  returns (array_map f l) <-> forall x, x ∈ l -> returns (f x).
Proof.
  induction l as [|x l IH]; simpl.
  - split; [intros _ x Hx; inversion Hx | intros _; exact I].
  - split.
    + intros Hr y Hy. destruct (f x) as [b|e] eqn:Hx; [|contradiction].
      simpl in Hr. apply elem_of_cons in Hy as [->|Hy];
        [now rewrite Hx|].
      apply IH; [|assumption].
      destruct (array_map f l); [exact I | contradiction].
    + intros Hall.
      assert (Hx : returns (f x)) by (apply Hall, elem_of_cons; now left).
      destruct (f x) as [b|e]; [|contradiction]. simpl.
      assert (Hl : returns (array_map f l)).
      { apply IH. intros y Hy. apply Hall, elem_of_cons. now right. }
      destruct (array_map f l); [exact I | contradiction].
Qed.

Lemma returns_bind_normal {A B : Type} (c : completion A) (g : A -> B) :
  returns (x <- c ;; Normal (g x)) <-> returns c.
Proof. destruct c; reflexivity. Qed.


(** The accumulator of [mergeErrors] started from any mapping: the merged
    results lie over it. *)
Lemma reduce_from (acc : ValidationErrors)
    (rs : list (option ValidationErrors)) :
  foldl reducer acc rs = foldl reducer ∅ rs ∪ acc.
Proof.
  revert acc. induction rs as [|r rs IH]; intros acc; simpl.
  - now rewrite (left_id_L ∅ (∪)).
  - rewrite IH, (IH (reducer ∅ r)). destruct r as [e|]; simpl.
    + unfold spread. now rewrite (right_id_L ∅ (∪)), (assoc_L (∪)).
    + now rewrite (right_id_L ∅ (∪)).
Qed.

Lemma reduce_cons (r : option ValidationErrors)
    (rs : list (option ValidationErrors)) :
  foldl reducer ∅ (r :: rs) = foldl reducer ∅ rs ∪ errors_map r.
Proof.
  simpl. rewrite reduce_from. destruct r; simpl; unfold spread;
    now rewrite ?(right_id_L ∅ (∪)).
Qed.

Lemma reduce_app (xs ys : list (option ValidationErrors)) :
  foldl reducer ∅ (xs ++ ys)%list
  = foldl reducer ∅ ys ∪ foldl reducer ∅ xs.
Proof. rewrite foldl_app. apply reduce_from. Qed.

Lemma mergeErrors_reduce (rs : list (option ValidationErrors)) :
  mergeErrors rs = errors_of_map (foldl reducer ∅ rs).
Proof.
  unfold mergeErrors, errors_of_map, object_keys.
  now rewrite length_fmap, length_map_to_list.
Qed.

Lemma errors_of_map_None (m : ValidationErrors) :
  errors_of_map m = None <-> m = ∅.
Proof.
  unfold errors_of_map. rewrite <- map_size_empty_iff.
  destruct (Nat.eqb_spec (size m) 0); split; congruence.
Qed.

Lemma errors_map_of_map (m : ValidationErrors) :
  errors_map (errors_of_map m) = m.
Proof.
  unfold errors_of_map. destruct (Nat.eqb_spec (size m) 0) as [Hz|Hz];
    [|reflexivity].
  apply map_size_empty_iff in Hz. now subst m.
Qed.

Lemma union_empty_iff (m1 m2 : ValidationErrors) :
  m1 ∪ m2 = ∅ <-> m1 = ∅ /\ m2 = ∅.
Proof.
  split.
  - intros Hu. pose proof (map_positive_l _ _ Hu) as ->.
    now rewrite (left_id_L ∅ (∪)) in Hu.
  - intros [-> ->]. now rewrite (left_id_L ∅ (∪)).
Qed.

Lemma Forall2_elem_of {A B : Type} (R : A -> B -> Prop)
    (l : list A) (k : list B) :
  Forall2 R l k ->
  (forall x, x ∈ l -> exists y, y ∈ k /\ R x y)
  /\ (forall y, y ∈ k -> exists x, x ∈ l /\ R x y).
Proof.
  induction 1 as [|x y l k Hxy _ [IHl IHk]].
  - split; intros z Hz; inversion Hz.
  - split.
    + intros z Hz. apply elem_of_cons in Hz as [->|Hz].
      * exists y. split; [apply elem_of_cons; now left | assumption].
      * destruct (IHl z Hz) as (w & Hw & Hzw).
        exists w. split; [apply elem_of_cons; now right | assumption].
    + intros z Hz. apply elem_of_cons in Hz as [->|Hz].
      * exists x. split; [apply elem_of_cons; now left | assumption].
      * destruct (IHk z Hz) as (w & Hw & Hzw).
        exists w. split; [apply elem_of_cons; now right | assumption].
Qed.

Lemma reduce_empty (rs : list (option ValidationErrors)) :
  foldl reducer ∅ rs = ∅ <-> forall e, Some e ∈ rs -> e = ∅.
Proof.
  induction rs as [|r rs IH].
  - split; [intros _ e He; inversion He | reflexivity].
  - rewrite reduce_cons, union_empty_iff, IH. split.
    + intros [Hrs Hr] e He. apply elem_of_cons in He as [<-|He];
        [exact Hr | now apply Hrs].
    + intros Hall. split.
      * intros e He. apply Hall, elem_of_cons. now right.
      * destruct r as [e|]; [|reflexivity].
        apply Hall, elem_of_cons. now left.
Qed.

Lemma reduce_dom (rs : list (option ValidationErrors)) (k : string) :
  k ∈ dom (foldl reducer ∅ rs)
  <-> exists e, Some e ∈ rs /\ k ∈ dom e.
Proof.
  induction rs as [|r rs IH].
  - simpl. rewrite dom_empty_L. split; [intros Hk; set_solver|].
    intros (e & He & _). inversion He.
  - rewrite reduce_cons, dom_union_L, elem_of_union, IH. split.
    + intros [(e & He & Hk)|Hk].
      * exists e. split; [apply elem_of_cons; now right | assumption].
      * destruct r as [e|]; simpl in Hk; [|set_solver].
        exists e. split; [apply elem_of_cons; now left | assumption].
    + intros (e & He & Hk). apply elem_of_cons in He as [<-|He].
      * now right.
      * left. now exists e.
Qed.




Lemma validate_unfold (v : any) (vs : validators_arg) :
  validate v vs =
    (rs <- executeValidators v (validator_list vs) ;;
     Normal (Build_ValidationResult (mergeErrors rs)
               (bool_decide (mergeErrors rs = None)))).
Proof.
  unfold validate.
  replace (match vs with ValidatorArray fs => fs | OneValidator f => [f] end)
    with (validator_list vs) by (destruct vs; reflexivity).
  destruct (executeValidators v (validator_list vs)) as [rs|e];
    [|reflexivity].
  simpl. now destruct (bool_decide (mergeErrors rs <> None)).
Qed.

Lemma executeValidators_Forall2 (v : any) (fs : list ValidatorFn)
    (rs : list (option ValidationErrors)) :
  executeValidators v fs = Normal rs
  <-> Forall2 (fun f r => f v = Normal r) fs rs.
Proof. apply array_map_Forall2. Qed.


(** C1.  For every value and every validator or array of validators,
    the result of [validate] has [valid == (errors == null)], and its
    [errors] is [null] exactly when no validator produced a failure, that
    is, returned a record with a failing rule in it. *)
Theorem validate_invariant (v : any) (vs : validators_arg)
    (result : ValidationResult) :
  validate v vs = Normal result ->
  valid result = bool_decide (errors result = None)
  /\ (errors result = None
      <-> forall f, f ∈ validator_list vs -> ~ failure (f v)).
Proof.
  rewrite validate_unfold.
  destruct (executeValidators v (validator_list vs)) as [rs|e] eqn:Hrun;
    [|discriminate].
  simpl. intros [= <-]. simpl. split; [reflexivity|].
  apply executeValidators_Forall2, Forall2_elem_of in Hrun.
  destruct Hrun as [Hruns Hcomes].
  rewrite mergeErrors_reduce, errors_of_map_None, reduce_empty. split.
  - intros Hall f Hf (e & He & Hne).
    destruct (Hruns f Hf) as (r & Hr & Hfr).
    rewrite He in Hfr. injection Hfr as <-. now apply Hne, Hall.
  - intros Hnone e He.
    destruct (Hcomes _ He) as (f & Hf & Hfe).
    destruct (decide (size e = 0)) as [Hz|Hnz];
      [now apply map_size_empty_iff|].
    exfalso. apply (Hnone f Hf). exists e. split; [assumption|].
    intros ->. now apply Hnz.
Qed.

(** C4.  [validate] never short-circuits: the results it merges are the
    outcomes of all the validators of the array on the value, one per
    validator and in order, so that it returns exactly when every one of
    them returns; and the keys of the [errors] it returns ([null] read as
    no key) are those of the records the validators returned.  In
    particular [validate(null, [required, min(5), max(10)])] yields an
    [errors] whose only key is [required]. *)
Theorem validate_runs_every_validator (v : any) (fs : list ValidatorFn) :
  (forall rs, executeValidators v fs = Normal rs
              <-> Forall2 (fun f r => f v = Normal r) fs rs)
  /\ (returns (validate v (ValidatorArray fs))
      <-> forall f, f ∈ fs -> returns (f v))
  /\ (forall result, validate v (ValidatorArray fs) = Normal result ->
      forall key : string,
        key ∈ dom (errors_map (errors result))
        <-> exists f e, f ∈ fs /\ f v = Normal (Some e) /\ key ∈ dom e)
  /\ validate VNull
       (ValidatorArray [Validators.required; Validators.min (VNum (Fin 5));
                        Validators.max (VNum (Fin 10))])
     = Normal (Build_ValidationResult (Some required_error) false)
  /\ dom required_error = ({[ "required" ]} : gset string).
Proof.
  split; [|split; [|split; [|split]]].
  - intros rs. apply executeValidators_Forall2.
  - rewrite validate_unfold. simpl validator_list.
    unfold executeValidators.
    rewrite returns_bind_normal. apply array_map_returns.
  - intros result. rewrite validate_unfold. simpl validator_list.
    destruct (executeValidators v fs) as [rs|e] eqn:Hrun; [|discriminate].
    simpl. intros [= <-] key. simpl.
    apply executeValidators_Forall2, Forall2_elem_of in Hrun.
    destruct Hrun as [Hruns Hcomes].
    rewrite mergeErrors_reduce, errors_map_of_map, reduce_dom. split.
    + intros (e & He & Hkey). destruct (Hcomes _ He) as (f & Hf & Hfe).
      now exists f, e.
    + intros (f & e & Hf & Hfe & Hkey).
      destruct (Hruns f Hf) as (r & Hr & Hfr).
      rewrite Hfe in Hfr. injection Hfr as <-. now exists e.
  - reflexivity.
  - unfold required_error. now rewrite dom_singleton_L.
Qed.



(** ** More on merging *)

Lemma array_map_app_eq {A B : Type} (f : A -> completion B) (xs ys : list A) :
  array_map f (xs ++ ys)%list
  = (rx <- array_map f xs ;; ry <- array_map f ys ;; Normal (rx ++ ry)%list).
Proof.
  induction xs as [|x xs IH]; simpl.
  - destruct (array_map f ys); reflexivity.
  - destruct (f x) as [y|e]; simpl; [|reflexivity].
    rewrite IH. destruct (array_map f xs) as [rx|e]; simpl; [|reflexivity].
    destruct (array_map f ys); reflexivity.
Qed.

Lemma array_map_permutation {A B : Type} (f : A -> completion B)
    (xs ys : list A) (rs : list B) :
  xs ≡ₚ ys -> array_map f xs = Normal rs ->
  exists rs', array_map f ys = Normal rs' /\ rs ≡ₚ rs'.
Proof.
  intros Hperm. revert rs.
  induction Hperm as [|x xs ys _ IH|x y xs|xs ys zs _ IH1 _ IH2];
    intros rs; simpl.
  - intros [= <-]. now exists [].
  - destruct (f x) as [b|e]; simpl; [|discriminate].
    destruct (array_map f xs) as [bs|e]; simpl; [|discriminate].
    intros [= <-]. destruct (IH bs eq_refl) as (bs' & -> & Hbs).
    exists (b :: bs'). split; [reflexivity | now constructor].
  - destruct (f y) as [b|e]; simpl; [|discriminate].
    destruct (f x) as [c|e]; simpl; [|discriminate].
    destruct (array_map f xs) as [bs|e]; simpl; [|discriminate].
    intros [= <-]. exists (c :: b :: bs). split; [reflexivity|].
    apply perm_swap.
  - intros Hxs. destruct (IH1 rs Hxs) as (rs1 & Hys & Hp1).
    destruct (IH2 rs1 Hys) as (rs2 & Hzs & Hp2).
    exists rs2. split; [assumption | now transitivity rs1].
Qed.

Lemma reduce_lookup (rs : list (option ValidationErrors)) (k : string)
    (d : error_detail) :
  foldl reducer ∅ rs !! k = Some d -> exists e, Some e ∈ rs /\ e !! k = Some d.
Proof.
  induction rs as [|r rs IH].
  - simpl. rewrite lookup_empty. discriminate.
  - rewrite reduce_cons, lookup_union_Some_raw. intros [Hk|[_ Hk]].
    + destruct (IH Hk) as (e & He & Hd).
      exists e. split; [apply elem_of_cons; now right | assumption].
    + destruct r as [e|]; simpl in Hk; [|now rewrite lookup_empty in Hk].
      exists e. split; [apply elem_of_cons; now left | assumption].
Qed.

Lemma keys_disjoint_permutation (rs rs' : list (option ValidationErrors)) :
  rs ≡ₚ rs' -> keys_disjoint rs -> keys_disjoint rs'.
Proof.
  induction 1 as [|r rs rs' Hperm IH|r1 r2 rs|rs1 rs2 rs3 _ IH1 _ IH2];
    simpl; [tauto| | |tauto].
  - intros [Hr Hrs]. split; [now rewrite <- Hperm | now apply IH].
  - intros [Hr2 [Hr1 Hrs]]. apply Forall_cons in Hr2 as [H21 Hr2].
    repeat split; [|assumption..].
    constructor; [now symmetry | assumption].
Qed.

Lemma reduce_disjoint (r : option ValidationErrors)
    (rs : list (option ValidationErrors)) :
  Forall (fun r' => errors_map r ##ₘ errors_map r') rs ->
  errors_map r ##ₘ foldl reducer ∅ rs.
Proof.
  induction 1 as [|r' rs Hr _ IH].
  - simpl. apply map_disjoint_empty_r.
  - rewrite reduce_cons. now apply map_disjoint_union_r_2.
Qed.

Lemma reduce_permutation (rs rs' : list (option ValidationErrors)) :
  rs ≡ₚ rs' -> keys_disjoint rs ->
  foldl reducer ∅ rs = foldl reducer ∅ rs'.
Proof.
  induction 1 as [|r rs rs' Hperm IH|r1 r2 rs|rs1 rs2 rs3 Hp1 IH1 _ IH2].
  - reflexivity.
  - intros [_ Hrs]. rewrite !reduce_cons. now rewrite IH.
  - intros [Hr2 [Hr1 Hrs]]. apply Forall_cons in Hr2 as [H21 Hr2].
    rewrite !reduce_cons, <- !(assoc_L (∪)). f_equal.
    now apply map_union_comm.
  - intros Hd. rewrite IH1 by assumption. apply IH2.
    now apply (keys_disjoint_permutation rs1).
Qed.

Lemma executeValidators_app_eq (v : any) (xs ys : list ValidatorFn) :
  executeValidators v (xs ++ ys)%list
  = (rx <- executeValidators v xs ;;
     ry <- executeValidators v ys ;; Normal (rx ++ ry)%list).
Proof. apply array_map_app_eq. Qed.

Lemma executeValidators_cons (v : any) (f : ValidatorFn)
    (fs : list ValidatorFn) :
  executeValidators v (f :: fs)
  = (r <- f v ;; rs <- executeValidators v fs ;; Normal (r :: rs)).
Proof. reflexivity. Qed.

Lemma executeValidators_app_inv (v : any) (xs ys : list ValidatorFn)
    (rs : list (option ValidationErrors)) :
  executeValidators v (xs ++ ys)%list = Normal rs ->
  exists rx ry, rs = (rx ++ ry)%list
    /\ executeValidators v xs = Normal rx
    /\ executeValidators v ys = Normal ry.
Proof.
  rewrite executeValidators_app_eq.
  destruct (executeValidators v xs) as [rx|e]; simpl; [|discriminate].
  destruct (executeValidators v ys) as [ry|e]; simpl; [|discriminate].
  intros [= <-]. now exists rx, ry.
Qed.

(** X4.  The [errors] of [validate] is never an empty record, and every
    entry in it is, unchanged, the entry that one of the validators
    returned under the same key. *)
Theorem validate_entries_from_validators (v : any) (vs : validators_arg)
    (result : ValidationResult) :
  validate v vs = Normal result ->
  errors result <> Some ∅
  /\ (forall (key : string) (detail : error_detail),
        errors_map (errors result) !! key = Some detail ->
        exists f e, f ∈ validator_list vs /\ f v = Normal (Some e)
                    /\ e !! key = Some detail).
Proof.
  rewrite validate_unfold.
  destruct (executeValidators v (validator_list vs)) as [rs|e] eqn:Hrun;
    [|discriminate].
  simpl. intros [= <-]. simpl. rewrite mergeErrors_reduce. split.
  - unfold errors_of_map.
    destruct (Nat.eqb_spec (size (foldl reducer ∅ rs)) 0) as [Hz|Hnz];
      [discriminate|].
    intros [= Hempty]. apply Hnz. rewrite Hempty. apply map_size_empty.
  - intros key detail. rewrite errors_map_of_map. intros Hk.
    destruct (reduce_lookup _ _ _ Hk) as (e & He & Hd).
    apply executeValidators_Forall2, Forall2_elem_of in Hrun.
    destruct (proj2 Hrun _ He) as (f & Hf & Hfe). now exists f, e.
Qed.

(** X5.  On a key that several validators report, the last of them wins:
    when a validator of the array returned an entry under a key and no
    validator after it returned that key, the [errors] of [validate]
    holds exactly this entry under the key. *)
Theorem validate_last_write_wins (v : any) (xs ys : list ValidatorFn)
    (f : ValidatorFn) (e : ValidationErrors) (key : string)
    (detail : error_detail) (result : ValidationResult) :
  f v = Normal (Some e) -> e !! key = Some detail ->
  (forall g e', g ∈ ys -> g v = Normal (Some e') -> e' !! key = None) ->
  validate v (ValidatorArray (xs ++ f :: ys)%list) = Normal result ->
  errors_map (errors result) !! key = Some detail.
Proof.
  intros Hf Hkey Hlater. rewrite validate_unfold. simpl validator_list.
  destruct (executeValidators v (xs ++ f :: ys)%list) as [rs|err] eqn:Hrun;
    [|discriminate].
  simpl. intros [= <-]. simpl.
  apply executeValidators_app_inv in Hrun as (rx & ry & -> & Hx & Hy).
  rewrite executeValidators_cons, Hf in Hy. simpl in Hy.
  destruct (executeValidators v ys) as [rsy|err] eqn:Hys; [|discriminate].
  simpl in Hy. injection Hy as <-.
  rewrite mergeErrors_reduce, errors_map_of_map, reduce_app, reduce_cons.
  simpl errors_map.
  apply lookup_union_Some_l, lookup_union_Some_raw. right. split; [|assumption].
  destruct (foldl reducer ∅ rsy !! key) as [d|] eqn:Hd; [|reflexivity].
  exfalso. destruct (reduce_lookup _ _ _ Hd) as (e' & He' & Hd').
  apply executeValidators_Forall2, Forall2_elem_of in Hys.
  destruct (proj2 Hys _ He') as (g & Hg & Hge).
  rewrite (Hlater g e' Hg Hge) in Hd'. discriminate.
Qed.

(** X6.  A validator that passes is neutral: removing from the array a
    validator that returns [null] on the value does not change what
    [validate] returns (the validators being functions of the value). *)
Theorem validate_ignores_passing (v : any) (xs ys : list ValidatorFn)
    (f : ValidatorFn) :
  f v = Normal None ->
  validate v (ValidatorArray (xs ++ f :: ys)%list)
  = validate v (ValidatorArray (xs ++ ys)%list).
Proof.
  intros Hf. rewrite !validate_unfold. simpl validator_list.
  rewrite !executeValidators_app_eq, executeValidators_cons, Hf. simpl.
  destruct (executeValidators v xs) as [rx|e]; simpl; [|reflexivity].
  destruct (executeValidators v ys) as [ry|e]; simpl; [|reflexivity].
  assert (Hmerge : mergeErrors (rx ++ None :: ry)%list
                   = mergeErrors (rx ++ ry)%list).
  { rewrite !mergeErrors_reduce, !reduce_app, reduce_cons. simpl errors_map.
    now rewrite (right_id_L ∅ (∪)). }
  now rewrite Hmerge.
Qed.

(** X7.  When the records the validators return have pairwise distinct
    keys, the order of the validators does not matter: [validate] returns
    the same result on every permutation of the array (the validators
    being functions of the value). *)
Theorem validate_permutation (v : any) (xs ys : list ValidatorFn)
    (rs : list (option ValidationErrors)) (result : ValidationResult) :
  xs ≡ₚ ys ->
  executeValidators v xs = Normal rs -> keys_disjoint rs ->
  validate v (ValidatorArray xs) = Normal result ->
  validate v (ValidatorArray ys) = Normal result.
Proof.
  intros Hperm Hrun Hdisjoint. rewrite !validate_unfold. simpl validator_list.
  rewrite Hrun. simpl. intros [= <-].
  destruct (array_map_permutation _ _ _ _ Hperm Hrun) as (rs' & Hrun' & Hrs).
  change (executeValidators v ys = Normal rs') in Hrun'.
  rewrite Hrun'. simpl.
  rewrite !mergeErrors_reduce.
  now rewrite (reduce_permutation _ _ Hrs Hdisjoint).
Qed.

(** ** Validators combined by [validate] *)

Lemma min_on_numbers (v n : number) :
  Validators.min (VNum n) (VNum v)
  = if negb (number_is_nan v) && is_true (number_less_than v n)
    then Normal (Some (min_error (number_to_string n) (VNum n) (VNum v)))
    else Normal None.
Proof.
  rewrite min_unfold by reflexivity.
  rewrite isNaN_number, less_than_numbers.
  destruct (number_is_nan v), (is_true (number_less_than v n)); reflexivity.
Qed.

Lemma max_on_numbers (v n : number) :
  Validators.max (VNum n) (VNum v)
  = if negb (number_is_nan v) && is_true (number_less_than n v)
    then Normal (Some (max_error (number_to_string n) (VNum n) (VNum v)))
    else Normal None.
Proof.
  rewrite max_unfold by reflexivity.
  rewrite isNaN_number, greater_than_numbers.
  destruct (number_is_nan v), (is_true (number_less_than n v)); reflexivity.
Qed.

Lemma minLength_on_string (s : string) (n : number) :
  s <> "" ->
  Validators.minLength (VNum n) (VStr s)
  = if is_true (number_less_than (number_of_nat (String.length s)) n)
    then Normal (Some (minLength_error (number_to_string n) (VNum n)
                         (VNum (number_of_nat (String.length s)))))
    else Normal None.
Proof.
  intros Hs. unfold Validators.minLength. rewrite isEmptyValue_spec.
  assert (He : empty_per_predicate (VStr s) = false)
    by (destruct s; [congruence | reflexivity]).
  rewrite He. cbn [bind get_length nullish_coalesce].
  rewrite less_than_numbers. cbn [bind].
  destruct (is_true _); reflexivity.
Qed.

Lemma maxLength_on_string (s : string) (n : number) :
  s <> "" ->
  Validators.maxLength (VNum n) (VStr s)
  = if is_true (number_less_than n (number_of_nat (String.length s)))
    then Normal (Some (maxLength_error (number_to_string n) (VNum n)
                         (VNum (number_of_nat (String.length s)))))
    else Normal None.
Proof.
  intros Hs. unfold Validators.maxLength. rewrite isEmptyValue_spec.
  assert (He : empty_per_predicate (VStr s) = false)
    by (destruct s; [congruence | reflexivity]).
  rewrite He. cbn [bind get_length nullish_coalesce].
  rewrite greater_than_numbers. cbn [bind].
  destruct (is_true _); reflexivity.
Qed.

(** The validity and the keys of a merge of two checks that each give
    one record or [null]. *)
Lemma merge_two_checks (p q : bool) (e1 e2 : ValidationErrors)
    (k1 k2 : string) (pre : list (option ValidationErrors)) :
  Forall (fun r => r = None) pre ->
  dom e1 = {[ k1 ]} -> dom e2 = {[ k2 ]} ->
  let rs := (pre ++ [if p then Some e1 else None;
                     if q then Some e2 else None])%list in
  (mergeErrors rs = None <-> p = false /\ q = false)
  /\ (forall key : string,
        key ∈ dom (errors_map (mergeErrors rs))
        <-> key = k1 /\ p = true \/ key = k2 /\ q = true).
Proof.
  intros Hpre H1 H2 rs. subst rs.
  assert (Hin : forall e,
    Some e ∈ (pre ++ [if p then Some e1 else None;
                      if q then Some e2 else None])%list
    <-> p = true /\ e = e1 \/ q = true /\ e = e2).
  { intros e. rewrite elem_of_app, !elem_of_cons, elem_of_nil. split.
    - intros [Hp|[He|[He|[]]]].
      + rewrite Forall_forall in Hpre. now apply Hpre in Hp.
      + destruct p; [injection He as ->; now left | discriminate].
      + destruct q; [injection He as ->; now right | discriminate].
    - intros [[-> ->]|[-> ->]]; right; [now left | right; now left]. }
  rewrite mergeErrors_reduce. split.
  - rewrite errors_of_map_None, reduce_empty. split.
    + intros Hall. split.
      * destruct p; [|reflexivity]. exfalso.
        assert (He : e1 = ∅) by (apply Hall, Hin; now left).
        rewrite He, dom_empty_L in H1. set_solver.
      * destruct q; [|reflexivity]. exfalso.
        assert (He : e2 = ∅) by (apply Hall, Hin; now right).
        rewrite He, dom_empty_L in H2. set_solver.
    + intros [-> ->] e He. apply Hin in He as [[? _]|[? _]]; discriminate.
  - intros key. rewrite errors_map_of_map, reduce_dom. split.
    + intros (e & He & Hkey). apply Hin in He.
      destruct He as [[Hp He]|[Hq He]].
      * left. rewrite He, H1, elem_of_singleton in Hkey. now split.
      * right. rewrite He, H2, elem_of_singleton in Hkey. now split.
    + intros [[Hkey Hp]|[Hkey Hq]].
      * exists e1. split; [apply Hin; now left|].
        rewrite H1. now apply elem_of_singleton.
      * exists e2. split; [apply Hin; now right|].
        rewrite H2. now apply elem_of_singleton.
Qed.

Lemma is_true_less_than (x y : number) :
  x <> NaN -> y <> NaN ->
  (is_true (number_less_than x y) = true <-> ~ number_le y x).
Proof.
  intros Hx Hy. rewrite <- (number_less_than_ge x y Hx Hy).
  destruct (is_true (number_less_than x y)); split; congruence.
Qed.

(** X3.  A range check: for numbers [v], [a] and [b], none of them NaN,
    [validate(v, [required, min(a), max(b)])] is valid if and only if
    [a <= v <= b]; its [errors] has the key [min] exactly when [v < a],
    the key [max] exactly when [v > b], and no other key. *)
Theorem validate_range (v a b : number) :
  v <> NaN -> a <> NaN -> b <> NaN ->
  exists result : ValidationResult,
    validate (VNum v)
      (ValidatorArray [Validators.required; Validators.min (VNum a);
                       Validators.max (VNum b)])
    = Normal result
    /\ (valid result = true <-> number_le a v /\ number_le v b)
    /\ (forall key : string,
          key ∈ dom (errors_map (errors result))
          <-> key = "min" /\ ~ number_le a v
              \/ key = "max" /\ ~ number_le v b).
Proof.
  intros Hv Ha Hb. rewrite validate_unfold. simpl validator_list.
  rewrite !executeValidators_cons, min_on_numbers, max_on_numbers.
  assert (Hnan : number_is_nan v = false)
    by (destruct v; simpl; congruence).
  rewrite Hnan. simpl negb. rewrite !andb_true_l.
  change (Validators.required (VNum v)) with
    (Normal (None : option ValidationErrors)).
  pose proof (is_true_less_than v a Hv Ha) as Hmin.
  pose proof (is_true_less_than b v Hb Hv) as Hmax.
  pose proof (number_less_than_ge v a Hv Ha) as Hmin'.
  pose proof (number_less_than_ge b v Hb Hv) as Hmax'.
  set (p := is_true (number_less_than v a)) in *.
  set (q := is_true (number_less_than b v)) in *.
  destruct (merge_two_checks p q
              (min_error (number_to_string a) (VNum a) (VNum v))
              (max_error (number_to_string b) (VNum b) (VNum v))
              "min" "max" [None]) as [Hvalid Hkeys];
    [repeat constructor | apply dom_singleton_L | apply dom_singleton_L |].
  cbn [app] in Hvalid, Hkeys.
  destruct p, q; (eexists; split; [reflexivity|]); cbn [errors valid];
    (split; [rewrite bool_decide_eq_true, Hvalid
            | intros key; rewrite Hkeys]); intuition congruence.
Qed.

(** X8.  A length check: for a string [s] and bounds [a] and [b] other
    than NaN, [validate(s, [minLength(a), maxLength(b)])] is valid if
    and only if [s] is empty or [a <= s.length <= b]: the empty string
    passes whatever the bounds. *)
Theorem validate_length_range (s : string) (a b : number) :
  a <> NaN -> b <> NaN ->
  exists result : ValidationResult,
    validate (VStr s)
      (ValidatorArray [Validators.minLength (VNum a);
                       Validators.maxLength (VNum b)])
    = Normal result
    /\ (valid result = true
        <-> s = ""
            \/ number_le a (number_of_nat (String.length s))
               /\ number_le (number_of_nat (String.length s)) b).
Proof.
  intros Ha Hb. rewrite validate_unfold. simpl validator_list.
  destruct (decide (s = "")) as [->|Hs].
  - eexists. split; [reflexivity|]. cbn [valid]. split; [now left|].
    intros _. reflexivity.
  - rewrite !executeValidators_cons.
    rewrite minLength_on_string, maxLength_on_string by assumption.
    assert (Hlen : number_of_nat (String.length s) <> NaN) by discriminate.
    pose proof (number_less_than_ge _ a Hlen Ha) as Hmin.
    pose proof (number_less_than_ge b _ Hb Hlen) as Hmax.
    set (len := number_of_nat (String.length s)) in *.
    set (p := is_true (number_less_than len a)) in *.
    set (q := is_true (number_less_than b len)) in *.
    destruct (merge_two_checks p q
                (minLength_error (number_to_string a) (VNum a) (VNum len))
                (maxLength_error (number_to_string b) (VNum b) (VNum len))
                "minLength" "maxLength" []) as [Hvalid _];
      [constructor | apply dom_singleton_L | apply dom_singleton_L |].
    cbn [app] in Hvalid.
    destruct p, q; (eexists; split; [reflexivity|]); cbn [valid];
      rewrite bool_decide_eq_true, Hvalid; intuition congruence.
Qed.

Lemma minLength_skips_empty (n v : any) :
  empty_per_predicate v = true -> Validators.minLength n v = Normal None.
Proof.
  intros Hv. unfold Validators.minLength. rewrite isEmptyValue_spec, Hv.
  reflexivity.
Qed.

Lemma maxLength_skips_empty (n v : any) :
  empty_per_predicate v = true -> Validators.maxLength n v = Normal None.
Proof.
  intros Hv. unfold Validators.maxLength. rewrite isEmptyValue_spec, Hv.
  reflexivity.
Qed.

Lemma format_rule_skips_empty (f : ValidatorFn) (v : any) :
  format_rule f -> empty_per_predicate v = true -> f v = Normal None.
Proof.
  intros [m|m|n|n|r] Hv.
  - apply min_skips_empty. now left.
  - apply max_skips_empty. now left.
  - now apply minLength_skips_empty.
  - now apply maxLength_skips_empty.
  - now apply pattern_skips_empty.
Qed.

Lemma format_rules_skip_empty (fs : list ValidatorFn) (v : any) :
  Forall format_rule fs -> empty_per_predicate v = true ->
  exists rs, executeValidators v fs = Normal rs
    /\ Forall (fun r => r = None) rs.
Proof.
  intros Hfs Hv. induction Hfs as [|f fs Hf _ (rs & Hrs & Hnone)].
  - now exists [].
  - exists (None :: rs).
    rewrite executeValidators_cons, (format_rule_skips_empty f v Hf Hv), Hrs.
    split; [reflexivity | now constructor].
Qed.

Lemma reduce_all_null (rs : list (option ValidationErrors)) :
  Forall (fun r => r = None) rs -> foldl reducer ∅ rs = ∅.
Proof.
  intros Hnone. apply reduce_empty. intros e He.
  rewrite Forall_forall in Hnone. now apply Hnone in He.
Qed.

(** X9.  An optional field: on a value that is empty-per-predicate,
    every array of validators made by [min], [max], [minLength],
    [maxLength] and [pattern], with whatever parameters, validates to
    [{ errors: null, valid: true }], and the same array with [required]
    put anywhere in it validates to the [required] record alone. *)
Theorem empty_value_passes_format_rules (v : any)
    (before after : list ValidatorFn) :
  empty_per_predicate v = true ->
  Forall format_rule before -> Forall format_rule after ->
  validate v (ValidatorArray (before ++ after)%list)
  = Normal (Build_ValidationResult None true)
  /\ validate v
       (ValidatorArray (before ++ Validators.required :: after)%list)
     = Normal (Build_ValidationResult (Some required_error) false).
Proof.
  intros Hv Hbefore Hafter.
  destruct (format_rules_skip_empty _ v Hbefore Hv) as (rb & Hrb & Hnb).
  destruct (format_rules_skip_empty _ v Hafter Hv) as (ra & Hra & Hna).
  assert (Hreq : Validators.required v = Normal (Some required_error)).
  { unfold Validators.required. rewrite isEmptyValue_spec, Hv. reflexivity. }
  rewrite !validate_unfold. simpl validator_list.
  rewrite !executeValidators_app_eq, executeValidators_cons.
  rewrite Hrb, Hra, Hreq. cbn [bind]. split.
  - assert (Hmerge : mergeErrors (rb ++ ra)%list = None).
    { rewrite mergeErrors_reduce, reduce_app, !reduce_all_null by assumption.
      now rewrite (left_id_L ∅ (∪)). }
    now rewrite Hmerge.
  - assert (Hmerge : mergeErrors (rb ++ Some required_error :: ra)%list
                     = Some required_error).
    { rewrite mergeErrors_reduce, reduce_app, reduce_cons.
      rewrite !reduce_all_null by assumption. simpl errors_map.
      now rewrite (left_id_L ∅ (∪)), (right_id_L ∅ (∪)). }
    now rewrite Hmerge.
Qed.

End Merging.

(** ** More on the rules *)

Section Rules.
Context `{Runtime}.

(** X10.  A validator of [Validators] returns [null] or a record with
    exactly one key, the name of its rule, whatever the value and the
    parameter. *)
Theorem validators_single_key (v : any) (e : ValidationErrors) :
  (Validators.required v = Normal (Some e) -> dom e = {[ "required" ]})
  /\ (forall m : any,
        (Validators.min m v = Normal (Some e) -> dom e = {[ "min" ]})
        /\ (Validators.max m v = Normal (Some e) -> dom e = {[ "max" ]})
        /\ (Validators.minLength m v = Normal (Some e)
            -> dom e = {[ "minLength" ]})
        /\ (Validators.maxLength m v = Normal (Some e)
            -> dom e = {[ "maxLength" ]}))
  /\ (forall r : regexp,
        Validators.pattern r v = Normal (Some e) -> dom e = {[ "pattern" ]}).
Proof.
  split; [|split].
  - unfold Validators.required. rewrite isEmptyValue_spec.
    destruct (empty_per_predicate v); cbn [bind]; [|discriminate].
    intros [= <-]. apply dom_singleton_L.
  - intros m. repeat split.
    + unfold Validators.min.
      destruct (or_else _ _) as [[]|]; cbn [bind]; try discriminate.
      destruct (and_then _ _) as [[]|]; cbn [bind]; try discriminate.
      destruct (to_string m); cbn [bind]; [|discriminate].
      intros [= <-]. apply dom_singleton_L.
    + unfold Validators.max.
      destruct (or_else _ _) as [[]|]; cbn [bind]; try discriminate.
      destruct (and_then _ _) as [[]|]; cbn [bind]; try discriminate.
      destruct (to_string m); cbn [bind]; [|discriminate].
      intros [= <-]. apply dom_singleton_L.
    + unfold Validators.minLength.
      destruct (isEmptyValue v) as [[]|]; cbn [bind]; try discriminate.
      destruct (get_length v); cbn [bind]; [|discriminate].
      destruct (less_than _ m) as [[]|]; cbn [bind]; try discriminate.
      destruct (to_string m); cbn [bind]; [|discriminate].
      intros [= <-]. apply dom_singleton_L.
    + unfold Validators.maxLength.
      destruct (isEmptyValue v) as [[]|]; cbn [bind]; try discriminate.
      destruct (get_length v); cbn [bind]; [|discriminate].
      destruct (greater_than _ m) as [[]|]; cbn [bind]; try discriminate.
      destruct (to_string m); cbn [bind]; [|discriminate].
      intros [= <-]. apply dom_singleton_L.
  - intros r. unfold Validators.pattern.
    destruct (isEmptyValue v) as [[]|]; cbn [bind]; try discriminate.
    destruct (regexp_test r v) as [[[] r']|]; cbn [bind fst snd];
      try discriminate.
    intros [= <-]. apply dom_singleton_L.
Qed.

Lemma Qltb_asym (a b : Q) : Qltb a b = true -> Qltb b a = false.
Proof.
  rewrite Qltb_lt, Qltb_ge. apply Qlt_le_weak.
Qed.

Lemma number_less_than_asym (x y : number) :
  number_less_than x y = Some true ->
  is_true (number_less_than y x) = false.
Proof.
  destruct x as [| | |a], y as [| | |b]; simpl; try discriminate;
    try reflexivity.
  intros [= Hab]. now rewrite (Qltb_asym _ _ Hab).
Qed.

Lemma string_ltb_asym (a b : string) :
  String.ltb a b = true -> String.ltb b a = false.
Proof.
  unfold String.ltb. rewrite (String.compare_antisym b a).
  destruct (String.compare a b); simpl; congruence.
Qed.

(** When [x < y] is true, [y < x] is evaluated without a fault and is
    not true. *)
Lemma is_less_than_asym (x y : any) :
  is_less_than x y = Normal (Some true) ->
  exists r, is_less_than y x = Normal r /\ is_true r = false.
Proof.
  unfold is_less_than.
  destruct (to_primitive x) as [px|]; cbn [bind]; [|discriminate].
  destruct (to_primitive y) as [py|]; cbn [bind]; [|discriminate].
  assert (Hnum :
    (nx <- to_number px ;; ny <- to_number py ;;
     Normal (number_less_than nx ny)) = Normal (Some true) ->
    exists r,
      (ny <- to_number py ;; nx <- to_number px ;;
       Normal (number_less_than ny nx)) = Normal r /\ is_true r = false).
  { destruct (to_number px) as [nx|]; cbn [bind]; [|discriminate].
    destruct (to_number py) as [ny|]; cbn [bind]; [|discriminate].
    intros [= Hlt]. eexists. split; [reflexivity|].
    now apply number_less_than_asym. }
  destruct px, py; try exact Hnum.
  intros [= Hlt]. eexists. split; [reflexivity|]. simpl.
  now rewrite (string_ltb_asym _ _ Hlt).
Qed.

Lemma and_then_true (a b : completion bool) :
  and_then a b = Normal true -> a = Normal true /\ b = Normal true.
Proof.
  unfold and_then. destruct a as [[]|]; cbn [bind]; try discriminate.
  now intros ->.
Qed.

Lemma bound_failure (m v : any) (test : completion bool)
    (record : string -> ValidationErrors) (e : ValidationErrors) :
  (fails <- and_then (nan <- isNaN v ;; Normal (negb nan)) test ;;
   if fails then text <- to_string m ;; Normal (Some (record text))
   else Normal None) = Normal (Some e) ->
  isNaN v = Normal false /\ test = Normal true.
Proof.
  destruct (and_then _ test) as [[]|] eqn:Hand; cbn [bind];
    try discriminate.
  intros _. apply and_then_true in Hand as [Hnan Htest].
  split; [|assumption].
  destruct (isNaN v) as [[]|]; cbn [bind] in Hnan; try discriminate.
  reflexivity.
Qed.

Lemma bounds_not_empty (m v : any) :
  ~ (empty_per_predicate v = true \/ empty_per_predicate m = true) ->
  empty_per_predicate v = false /\ empty_per_predicate m = false.
Proof.
  destruct (empty_per_predicate v), (empty_per_predicate m); tauto.
Qed.

(** X11.  With the same threshold, [min] and [max] never both fail:
    when one of them returns its error record on a value, the other
    returns [null] on it. *)
Theorem min_max_exclusive (m v : any) :
  (forall e, Validators.min m v = Normal (Some e) ->
             Validators.max m v = Normal None)
  /\ (forall e, Validators.max m v = Normal (Some e) ->
                Validators.min m v = Normal None).
Proof.
  destruct (decide (empty_per_predicate v = true
                    \/ empty_per_predicate m = true)) as [Hskip|Hnot].
  - rewrite min_skips_empty, max_skips_empty by assumption.
    split; intros; reflexivity.
  - apply bounds_not_empty in Hnot as [Hv Hm].
    rewrite min_unfold, max_unfold by assumption. split; intros e He.
    + apply bound_failure in He as [Hnan Hlt]. rewrite Hnan. cbn [bind].
      unfold less_than in Hlt. unfold and_then, greater_than. cbn [bind negb].
      destruct (is_less_than v m) as [[[]|]|] eqn:Hvm; try discriminate.
      destruct (is_less_than_asym _ _ Hvm) as (r & -> & Hr).
      cbn [bind]. now rewrite Hr.
    + apply bound_failure in He as [Hnan Hgt]. rewrite Hnan. cbn [bind].
      unfold greater_than in Hgt. unfold and_then, less_than. cbn [bind negb].
      destruct (is_less_than m v) as [[[]|]|] eqn:Hmv; try discriminate.
      destruct (is_less_than_asym _ _ Hmv) as (r & -> & Hr).
      cbn [bind]. now rewrite Hr.
Qed.

Lemma to_primitive_idempotent (v p : any) :
  to_primitive v = Normal p -> to_primitive p = Normal p.
Proof.
  destruct v; simpl; try (intros [= <-]; reflexivity).
  - destruct (array_join to_string elements); simpl; [|discriminate].
    intros [= <-]. reflexivity.
  - destruct (has_own_property "toString" properties); simpl;
      [discriminate|]. intros [= <-]. reflexivity.
Qed.

(** Against a number, a value is compared by its conversion to a
    number. *)
Lemma less_than_number_r (v : any) (x n : number) :
  to_number v = Normal x ->
  less_than v (VNum n) = Normal (is_true (number_less_than x n)).
Proof.
  unfold less_than, is_less_than, to_number.
  destruct (to_primitive v) as [p|] eqn:Hp; cbn [bind]; [|discriminate].
  rewrite (to_primitive_idempotent _ _ Hp). cbn [bind].
  intros Hx. destruct p; rewrite Hx; reflexivity.
Qed.

(** X12.  [min] compares what the value converts to and reports the
    value itself: for a value [v] that is not empty-per-predicate and
    converts to a number [x], neither [x] nor the threshold [n] being
    NaN, [min(n)(v)] returns [null] if and only if [x >= n], and
    otherwise the [min] record whose reason holds [v] unconverted.  So
    a numeric string, a boolean or a one-element array is checked by its
    numeric value. *)
Theorem min_compares_converted (v : any) (x n : number) :
  empty_per_predicate v = false -> to_number v = Normal x ->
  x <> NaN -> n <> NaN ->
  (Validators.min (VNum n) v = Normal None <-> number_le n x)
  /\ (~ number_le n x ->
      Validators.min (VNum n) v
      = Normal (Some (min_error (number_to_string n) (VNum n) v))).
Proof.
  intros Hv Hx Hnan Hn. rewrite min_unfold by (assumption || reflexivity).
  unfold isNaN. rewrite Hx, (less_than_number_r _ _ _ Hx).
  assert (Hx' : number_is_nan x = false) by (destruct x; simpl; congruence).
  unfold and_then. cbn [bind]. rewrite Hx'. cbn [bind negb to_string].
  pose proof (number_less_than_ge x n Hnan Hn) as Hge.
  destruct (is_true (number_less_than x n)) eqn:Hlt.
  - assert (Hnle : ~ number_le n x).
    { intros Hle. apply Hge in Hle. discriminate. }
    split; [|reflexivity]. split; [discriminate | contradiction].
  - split.
    + split; [intros _; now apply Hge | reflexivity].
    + intros Hnle. exfalso. apply Hnle. now apply Hge.
Qed.

(** X13.  When the threshold is itself a string, a string value is
    compared with it by code units, not by value: for non-empty strings
    [s] and [t], [min(t)(s)] returns [null] if and only if [s] is not
    numeric or [s] is not before [t] in the order of strings. *)
Theorem min_string_threshold (s t : string) :
  s <> "" -> t <> "" ->
  (Validators.min (VStr t) (VStr s) = Normal None
   <-> string_to_number s = NaN \/ String.ltb s t = false)
  /\ (string_to_number s <> NaN -> String.ltb s t = true ->
      Validators.min (VStr t) (VStr s)
      = Normal (Some (min_error t (VStr t) (VStr s)))).
Proof.
  intros Hs Ht.
  assert (Hes : empty_per_predicate (VStr s) = false)
    by (destruct s; [congruence | reflexivity]).
  assert (Het : empty_per_predicate (VStr t) = false)
    by (destruct t; [congruence | reflexivity]).
  assert (Hshape :
    Validators.min (VStr t) (VStr s)
    = if negb (number_is_nan (string_to_number s)) && String.ltb s t
      then Normal (Some (min_error t (VStr t) (VStr s)))
      else Normal None).
  { rewrite min_unfold by assumption.
    unfold and_then, isNaN, less_than, is_less_than.
    cbn [bind to_number to_primitive to_string].
    destruct (number_is_nan (string_to_number s)), (String.ltb s t);
      reflexivity. }
  rewrite Hshape.
  assert (Hnan : number_is_nan (string_to_number s) = true
                 <-> string_to_number s = NaN)
    by (destruct (string_to_number s); simpl; split; congruence).
  destruct (number_is_nan (string_to_number s)), (String.ltb s t);
    cbn [negb andb]; split;
    try (split; [intros _ | reflexivity]);
    try (intros _ _; reflexivity);
    try (intros _ Hlt; discriminate Hlt);
    try (intros Hne; exfalso; apply Hne; now apply Hnan);
    try (now right); try (left; now apply Hnan).
  split; [discriminate|]. intros [Hs'|Hlt]; [|discriminate Hlt].
  apply Hnan in Hs'. discriminate Hs'.
Qed.

(** X14.  After a failure the [pattern] validator is back at the start:
    the record it returns holds the RegExp with its source and flags
    unchanged and in a state that [test] reads from index 0 (its
    [lastIndex] is 0 when it has the [g] or [y] flag), so the next call
    searches the whole string again. *)
Theorem pattern_failure_resets (r : regexp) (v : any) (e : ValidationErrors) :
  Validators.pattern r v = Normal (Some e) ->
  exists r' : regexp,
    e = pattern_error r' v
    /\ re_source r' = re_source r /\ re_flags r' = re_flags r
    /\ starts_at_zero r'.
Proof.
  destruct (empty_per_predicate v) eqn:Hv;
    [rewrite pattern_skips_empty by assumption; discriminate|].
  rewrite pattern_unfold by assumption.
  destruct (to_string v) as [s|]; cbn [bind]; [|discriminate].
  cbn zeta. destruct (bool_decide _) eqn:Hfound; [discriminate|].
  intros [= <-]. eexists. split; [reflexivity|].
  apply bool_decide_eq_false in Hfound.
  unfold regexp_builtin_exec in *. cbn [fst snd] in *.
  destruct (re_global r || re_sticky r) eqn:Htracked.
  - cbn [re_source re_flags]. repeat split. right.
    destruct (regexp_search r s (re_lastIndex r) _); [|reflexivity].
    exfalso. apply Hfound. discriminate.
  - repeat split. now left.
Qed.

End Rules.

(** ** Closed examples

    The theorems above applied at concrete inputs, and the inputs that
    separate an amended property from the specification's wording.  They
    run in [integer_runtime]. *)

Section Examples.
#[local] Existing Instance integer_runtime.

Local Ltac run := vm_compute; reflexivity.

Let four : any := VNum (Fin 4).
Let five : any := VNum (Fin 5).
Let ten : any := VNum (Fin 10).
Let required_min_max : validators_arg :=
  ValidatorArray [Validators.required; Validators.min five; Validators.max ten].

(** [validate(4, [required, min(5), max(10)])] is invalid with the one key
    [min], and the invariant holds of it. *)
Lemma validate_invariant_witness :
  let result :=
    Build_ValidationResult (Some (min_error "5" five four)) false in
  validate four required_min_max = Normal result
  /\ valid result = bool_decide (errors result = None)
  /\ (errors result = None
      <-> forall f, f ∈ validator_list required_min_max -> ~ failure (f four)).
Proof.
  assert (Hrun : validate four required_min_max
                 = Normal (Build_ValidationResult
                             (Some (min_error "5" five four)) false))
    by run.
  split; [exact Hrun|].
  exact (validate_invariant four required_min_max _ Hrun).
Defined.

(** [required([])] is the required-error although [[]] is neither [null],
    [undefined] nor the empty string. *)
Lemma required_empty_array :
  Validators.required (VArray []) = Normal (Some required_error)
  /\ VArray [] <> VNull /\ VArray [] <> VUndefined /\ VArray [] <> VStr "".
Proof. split; [run | repeat split; discriminate]. Qed.

Lemma required_spec_witness :
  Validators.required (VStr "") = Normal (Some required_error)
  /\ Validators.required (VNum (Fin 0)) = Normal None
  /\ Validators.required (VObject [("length", VNum (Fin 0))])
     = Normal (Some required_error).
Proof.
  split; [|split].
  - apply (proj1 (required_spec (VStr ""))). right. right. reflexivity.
  - apply (proj1 (proj2 (required_spec (VNum (Fin 0)))));
      first [discriminate | reflexivity].
  - apply (proj2 (proj2 (required_spec _))). reflexivity.
Defined.

(** [min(NaN)(5)] is [null] although [5 >= NaN] is false and neither is
    empty. *)
Lemma min_nan_threshold :
  Validators.min (VNum NaN) five = Normal None
  /\ ~ number_le NaN (Fin 5)
  /\ greater_equal five (VNum NaN) = Normal false
  /\ empty_per_predicate five = false
  /\ empty_per_predicate (VNum NaN) = false.
Proof. split; [run | split; [intros [] | repeat split; run]]. Qed.

Lemma min_spec_witness :
  number_to_string (Fin 5) = "5"
  /\ Validators.min five four
     = Normal (Some (min_error (number_to_string (Fin 5)) five four))
  /\ (Validators.min five (VNum (Fin 7)) = Normal None
      <-> number_le (Fin 5) (Fin 7)
          \/ empty_per_predicate (VNum (Fin 7)) = true
          \/ empty_per_predicate five = true).
Proof.
  split; [run|]. split.
  - refine (proj2 (proj1 (min_spec (Fin 4) (Fin 5)) _ _) _);
      [discriminate | discriminate |].
    unfold number_le, Qle. simpl. lia.
  - refine (proj1 (proj1 (min_spec (Fin 7) (Fin 5)) _ _)); discriminate.
Defined.

(** A Symbol is not a number and not empty, and [min(5)] and [max(10)]
    throw on it. *)
Lemma bounds_throw_on_symbol :
  typeof (VSymbol "id") = "symbol"
  /\ empty_per_predicate (VSymbol "id") = false
  /\ empty_per_predicate five = false
  /\ Validators.min five (VSymbol "id") = Throw TypeError
  /\ Validators.max ten (VSymbol "id") = Throw TypeError.
Proof. repeat split; run. Qed.

Lemma bounds_on_non_numeric_witness :
  Validators.min five (VStr "abc") = Normal None
  /\ Validators.max five (VStr "abc") = Normal None.
Proof.
  apply (proj1 (bounds_on_non_numeric (VStr "abc") five eq_refl eq_refl)).
  run.
Defined.

(** [minLength(NaN)('abc')] is [null] although the length 3 is not at
    least NaN. *)
Lemma minLength_nan_bound :
  Validators.minLength (VNum NaN) (VStr "abc") = Normal None
  /\ empty_per_predicate (VStr "abc") = false
  /\ length_or_zero (VStr "abc") = VNum (Fin 3)
  /\ ~ number_le NaN (Fin 3).
Proof. split; [run | split; [run | split; [run | intros []]]]. Qed.

Lemma minLength_spec_witness :
  number_to_string (Fin 10) = "10"
  /\ Validators.minLength ten (VStr "123456789")
     = Normal (Some (minLength_error (number_to_string (Fin 10)) ten
                       (VNum (Fin 9)))).
Proof.
  split; [run|].
  refine (proj2 (proj2 (minLength_spec (VStr "123456789") (Fin 10))
                   eq_refl (Fin 9) eq_refl _ _) _);
    [discriminate | discriminate |].
  unfold number_le, Qle. simpl. lia.
Defined.

(** The global RegExp [/a/g] matches ["a"], yet with [lastIndex] at 1, as
    a first successful [test] leaves it, [pattern(/a/g)('a')] is the
    pattern error. *)
Lemma pattern_global_lastIndex :
  regexp_matches (RegExp "a" "g" 1) "a"
  /\ empty_per_predicate (VStr "a") = false
  /\ Validators.pattern (RegExp "a" "g" 1) (VStr "a")
     = Normal (Some (pattern_error (RegExp "a" "g" 0) (VStr "a")))
  /\ (regexp_builtin_exec (RegExp "a" "g" 0) "a").2 = RegExp "a" "g" 1.
Proof.
  split; [|split; [run | split; run]].
  exists 0%nat, 1%nat. split; [simpl; lia | split; [discriminate | run]].
Qed.

Lemma pattern_spec_witness :
  Validators.pattern (RegExp "https" "" 0) (VStr "https://x.com") = Normal None
  /\ Validators.pattern (RegExp "https" "" 0) (VStr "http://x.com")
     = Normal (Some (pattern_error (RegExp "https" "" 0)
                       (VStr "http://x.com"))).
Proof.
  assert (Hzero : starts_at_zero (RegExp "https" "" 0)) by (now right).
  split.
  - apply (proj1 (pattern_spec _ "https://x.com" Hzero)). left.
    exists 0%nat, 5%nat. split; [simpl; lia | split; [discriminate | run]].
  - apply (proj2 (pattern_spec _ "http://x.com" Hzero)).
    intros [Hm|He]; [|discriminate He].
    apply regexp_search_matches in Hm. apply Hm. run.
Defined.



Lemma validate_runs_every_validator_witness :
  returns (validate four required_min_max)
  /\ ~ returns (validate (VSymbol "id") required_min_max).
Proof.
  split.
  - apply (proj1 (proj2 (validate_runs_every_validator four _))).
    intros f Hf.
    repeat (apply elem_of_cons in Hf as [->|Hf]; [vm_compute; exact I|]).
    inversion Hf.
  - intros Hr.
    pose proof (proj1 (proj1 (proj2 (validate_runs_every_validator
                                       (VSymbol "id") _))) Hr
                  (Validators.min five)) as Hmin.
    assert (Hin : Validators.min five
                  ∈ [Validators.required; Validators.min five;
                     Validators.max ten]).
    { apply elem_of_cons. right. apply elem_of_cons. now left. }
    apply Hmin in Hin. vm_compute in Hin. exact Hin.
Defined.



Lemma max_spec_witness :
  Validators.max ten (VNum (Fin 11))
  = Normal (Some (max_error (number_to_string (Fin 10)) ten
                    (VNum (Fin 11)))).
Proof.
  refine (proj2 (proj1 (max_spec (Fin 11) (Fin 10)) _ _) _);
    [discriminate | discriminate |].
  unfold number_le, Qle. simpl. lia.
Defined.

Lemma maxLength_spec_witness :
  Validators.maxLength ten (VStr "12345678901")
  = Normal (Some (maxLength_error (number_to_string (Fin 10)) ten
                    (VNum (Fin 11)))).
Proof.
  refine (proj2 (proj2 (maxLength_spec (VStr "12345678901") (Fin 10))
                   eq_refl (Fin 11) eq_refl _ _) _);
    [discriminate | discriminate |].
  unfold number_le, Qle. simpl. lia.
Defined.

(** The scenarios of the test suite for the combined validators
    [required, min(5), max(10)]: 5, 7 and 9 are valid; [null], 4 and 11
    each fail with one key. *)
Theorem validate_scenarios :
  validate five required_min_max
  = Normal (Build_ValidationResult None true)
  /\ validate (VNum (Fin 7)) required_min_max
     = Normal (Build_ValidationResult None true)
  /\ validate (VNum (Fin 9)) required_min_max
     = Normal (Build_ValidationResult None true)
  /\ validate VNull required_min_max
     = Normal (Build_ValidationResult (Some required_error) false)
  /\ validate four required_min_max
     = Normal (Build_ValidationResult (Some (min_error "5" five four)) false)
  /\ validate (VNum (Fin 11)) required_min_max
     = Normal (Build_ValidationResult
                 (Some (max_error "10" ten (VNum (Fin 11)))) false).
Proof. repeat (split; [run|]). run. Qed.

Let three : any := VNum (Fin 3).
Let eight : any := VNum (Fin 8).

Lemma validate_range_witness :
  exists result : ValidationResult,
    validate (VNum (Fin 4))
      (ValidatorArray [Validators.required; Validators.min (VNum (Fin 5));
                       Validators.max (VNum (Fin 10))])
    = Normal result
    /\ (valid result = true
        <-> number_le (Fin 5) (Fin 4) /\ number_le (Fin 4) (Fin 10))
    /\ (forall key : string,
          key ∈ dom (errors_map (errors result))
          <-> key = "min" /\ ~ number_le (Fin 5) (Fin 4)
              \/ key = "max" /\ ~ number_le (Fin 4) (Fin 10)).
Proof.
  refine (validate_range (Fin 4) (Fin 5) (Fin 10) _ _ _); discriminate.
Defined.

Lemma validate_entries_from_validators_witness :
  let result :=
    Build_ValidationResult (Some (min_error "5" five four)) false in
  errors result <> Some ∅
  /\ (forall (key : string) (detail : error_detail),
        errors_map (errors result) !! key = Some detail ->
        exists f e, f ∈ validator_list required_min_max
                    /\ f four = Normal (Some e) /\ e !! key = Some detail).
Proof.
  assert (Hrun : validate four required_min_max
                 = Normal (Build_ValidationResult
                             (Some (min_error "5" five four)) false))
    by run.
  exact (validate_entries_from_validators four required_min_max _ Hrun).
Defined.

(** [validate(3, [min(5), min(8), required])]: both [min] validators
    fail, and the entry kept is that of [min(8)]. *)
Lemma validate_last_write_wins_witness :
  let detail :=
    ErrorDetail (dquote ++ "value" ++ dquote ++ " must be greater than 8")
      (Some (VObject [("min", eight); ("actual", three)])) in
  let result := Build_ValidationResult (Some {[ "min" := detail ]}) false in
  validate three
    (ValidatorArray
       ([Validators.min five] ++ Validators.min eight
          :: [Validators.required])%list)
  = Normal result
  /\ errors_map (errors result) !! "min" = Some detail.
Proof.
  intros detail result.
  assert (Hrun : validate three
                   (ValidatorArray
                      ([Validators.min five] ++ Validators.min eight
                         :: [Validators.required])%list)
                 = Normal result) by run.
  split; [exact Hrun|].
  refine (validate_last_write_wins three [Validators.min five]
            [Validators.required] (Validators.min eight)
            {[ "min" := detail ]} "min" detail result _ _ _ Hrun).
  - run.
  - run.
  - intros g e' Hg Hge. apply elem_of_cons in Hg as [->|Hg];
      [|inversion Hg].
    vm_compute in Hge. discriminate Hge.
Defined.

Lemma validate_ignores_passing_witness :
  validate four
    (ValidatorArray
       ([Validators.required] ++ Validators.max ten
          :: [Validators.min five])%list)
  = validate four
      (ValidatorArray ([Validators.required] ++ [Validators.min five])%list).
Proof.
  refine (validate_ignores_passing four [Validators.required]
            [Validators.min five] (Validators.max ten) _).
  run.
Defined.

Lemma validate_permutation_witness :
  validate four
    (ValidatorArray [Validators.max ten; Validators.required;
                     Validators.min five])
  = Normal (Build_ValidationResult (Some (min_error "5" five four)) false).
Proof.
  refine (validate_permutation four
            [Validators.required; Validators.min five; Validators.max ten]
            [Validators.max ten; Validators.required; Validators.min five]
            [None; Some (min_error "5" five four); None] _ _ _ _ _).
  - exact (perm_trans
             (perm_skip Validators.required
                (perm_swap (Validators.max ten) (Validators.min five) []))
             (perm_swap (Validators.max ten) Validators.required
                [Validators.min five])).
  - run.
  - simpl. repeat split; repeat constructor;
      first [apply map_disjoint_empty_l | apply map_disjoint_empty_r].
  - run.
Defined.

Lemma validate_length_range_witness :
  exists result : ValidationResult,
    validate (VStr "abc")
      (ValidatorArray [Validators.minLength (VNum (Fin 2));
                       Validators.maxLength (VNum (Fin 5))])
    = Normal result
    /\ (valid result = true
        <-> "abc" = ""
            \/ number_le (Fin 2) (number_of_nat (String.length "abc"))
               /\ number_le (number_of_nat (String.length "abc")) (Fin 5)).
Proof.
  refine (validate_length_range "abc" (Fin 2) (Fin 5) _ _); discriminate.
Defined.

Lemma empty_value_passes_format_rules_witness :
  validate (VStr "")
    (ValidatorArray
       ([Validators.min five]
          ++ [Validators.pattern (RegExp "a" "" 0);
              Validators.maxLength ten])%list)
  = Normal (Build_ValidationResult None true)
  /\ validate (VStr "")
       (ValidatorArray
          ([Validators.min five]
             ++ Validators.required
                :: [Validators.pattern (RegExp "a" "" 0);
                    Validators.maxLength ten])%list)
     = Normal (Build_ValidationResult (Some required_error) false).
Proof.
  refine (empty_value_passes_format_rules (VStr "") [Validators.min five]
            [Validators.pattern (RegExp "a" "" 0); Validators.maxLength ten]
            eq_refl _ _);
    repeat constructor.
Defined.

Lemma validators_single_key_witness :
  dom (min_error "5" five four) = ({[ "min" ]} : gset string).
Proof.
  refine (proj1 (proj1 (proj2 (validators_single_key four
                                 (min_error "5" five four))) five) _).
  run.
Defined.

Lemma min_max_exclusive_witness :
  Validators.max five four = Normal None.
Proof.
  refine (proj1 (min_max_exclusive five four) (min_error "5" five four) _).
  run.
Defined.

(** The string ['3'] is checked as the number 3. *)
Lemma min_compares_converted_witness :
  Validators.min (VNum (Fin 5)) (VStr "3")
  = Normal (Some (min_error (number_to_string (Fin 5)) (VNum (Fin 5))
                    (VStr "3"))).
Proof.
  refine (proj2 (min_compares_converted (VStr "3") (Fin 3) (Fin 5)
                   eq_refl _ _ _) _);
    [run | discriminate | discriminate |].
  unfold number_le, Qle. simpl. lia.
Defined.

(** [min('10')('9')] passes although 9 is less than 10: as strings,
    ['9'] is not before ['10']. *)
Lemma min_string_threshold_witness :
  Validators.min (VStr "10") (VStr "9") = Normal None.
Proof.
  refine (proj2 (proj1 (min_string_threshold "9" "10" _ _)) _);
    [discriminate | discriminate |].
  right. run.
Defined.

Lemma pattern_failure_resets_witness :
  exists r' : regexp,
    pattern_error (RegExp "a" "g" 0) (VStr "a") = pattern_error r' (VStr "a")
    /\ re_source r' = re_source (RegExp "a" "g" 1)
    /\ re_flags r' = re_flags (RegExp "a" "g" 1)
    /\ starts_at_zero r'.
Proof.
  refine (pattern_failure_resets (RegExp "a" "g" 1) (VStr "a")
            (pattern_error (RegExp "a" "g" 0) (VStr "a")) _).
  run.
Defined.

End Examples.
